(** * Quantum Travel AI backend: session and connection bookkeeping

    A shallow embedding of [quantum-travel-ai/backend/main.py]: the
    conversation store, the connection manager, the response generator and
    the HTTP / WebSocket handlers, followed by the properties of the
    specification that concern them.

    Python [str] values are modelled by [string]; non-ASCII text appears as
    its UTF-8 bytes, and where the program works on characters ([split]) the
    bytes are read as code points.  Everything the program obtains from the
    Python runtime and its libraries (the clock, [str.lower], the whitespace
    test, the [json] module, pydantic's error text) is collected in the
    class [Platform]; all results below hold for every platform, and
    [Reference.ascii_platform] is one platform on which the definitions can
    be evaluated. *)

From Stdlib Require Import Ascii String.
From stdpp Require Import base option list strings gmap pretty.

(** ** JSON values, exceptions *)

#[local] Set Warnings "-register-all".

(** What [json.loads] returns and [json.dumps] accepts.  An object is the
    Python [dict] in insertion order, with distinct keys. *)
Inductive json : Type :=
  | JNull
  | JBool (b : bool)
  | JInt (n : Z)
  | JFloat (literal : string)
  | JStr (s : string)
  | JArr (items : list json)
  | JObj (fields : list (string * json)).

(** The exceptions that occur in the program.  All of them except
    [WebSocketDisconnect] are only ever caught as [Exception]; each carries
    the text that [str(e)] yields. *)
Inductive exn : Type :=
  | WebSocketDisconnect
  | JSONDecodeError (msg : string)
  | AttributeError (msg : string)
  | KeyError (key : string)
  | ValidationError (msg : string)
  | RuntimeError (msg : string)
  | HTTPException (status_code : nat) (detail : string).

Inductive Result (A : Type) : Type :=
  | Ok (a : A)
  | Raise (e : exn).
Arguments Ok {A} a.
Arguments Raise {A} e.

Definition dquote : string := String "034"%char EmptyString.
Definition newline : string := String "010"%char EmptyString.

(** [str(e)] *)
Definition exn_str (e : exn) : string :=
  match e with
  | WebSocketDisconnect => EmptyString
  | JSONDecodeError msg => msg
  | AttributeError msg => msg
  | KeyError key => "'" +:+ key +:+ "'"
  | ValidationError msg => msg
  | RuntimeError msg => msg
  | HTTPException code detail => pretty code +:+ ": " +:+ detail
  end.

(** ** The platform *)

Class Platform : Type := {
  (** [datetime.datetime] and [float] values *)
  datetime : Type;
  pyfloat : Type;
  (** the value of the [n]-th call of [datetime.utcnow()] *)
  utcnow_at : nat → datetime;
  isoformat : datetime → string;
  timestamp : datetime → pyfloat;
  (** how an f-string renders a float *)
  float_str : pyfloat → string;
  (** distinct floats print differently *)
  float_str_inj : Inj (=) (=) float_str;
  str_lower : string → string;
  (** whether the character with code point [n] is whitespace for
      [str.split()] and [str.isspace()] *)
  isspace : N → bool;
  (** [json.loads]; [None] stands for [JSONDecodeError] *)
  json_loads : string → option json;
  (** the text of the [JSONDecodeError] raised for an undecodable input *)
  json_error : string → string;
  json_dumps : json → string;
  (** [str(e)] for the pydantic [ValidationError] raised when a
      [ChatResponse] is built with [model=None] *)
  model_validation_error : string;
}.

(** ** Python strings *)

(** ["\n".join(ls)] *)
Fixpoint unlines (ls : list string) : string :=
  match ls with
  | [] => EmptyString
  | [l] => l
  | l :: ls' => l +:+ newline +:+ unlines ls'
  end.

(** [needle in hay] *)
Fixpoint str_contains (needle hay : string) : bool :=
  if String.prefix needle hay then true
  else match hay with
       | EmptyString => false
       | String _ rest => str_contains needle rest
       end.

Definition str_is_empty (s : string) : bool :=
  match s with EmptyString => true | _ => false end.

(** *** Characters

    A Python [str] is a sequence of characters (code points); in the
    [string] that stands for it each character is the one to four bytes of
    its UTF-8 encoding.  [characters] cuts a [string] into its characters
    and [ord] gives the code point of one.  (A [string] that is not
    well-formed UTF-8 stands for no [str]; in it a byte that cannot continue
    the character being read starts a character of its own.) *)

Definition is_continuation (c : ascii) : bool :=
  let n := nat_of_ascii c in (128 <=? n) && (n <? 192).

(** The number of continuation bytes that follow the lead byte [c]. *)
Definition utf8_more (c : ascii) : nat :=
  let n := nat_of_ascii c in
  if n <? 192 then 0
  else if n <? 224 then 1
  else if n <? 240 then 2
  else if n <? 248 then 3
  else 0.

(** [cur] holds the bytes read of the current character, which still lacks
    [missing] continuation bytes. *)
Fixpoint characters_from (cur : string) (missing : nat) (s : string)
    : list string :=
  match s with
  | EmptyString => if str_is_empty cur then [] else [cur]
  | String c rest =>
      match missing with
      | S missing' =>
          if is_continuation c then
            characters_from (cur +:+ String c EmptyString) missing' rest
          else
            cur :: characters_from (String c EmptyString) (utf8_more c) rest
      | 0 =>
          (if str_is_empty cur then [] else [cur])
          ++ characters_from (String c EmptyString) (utf8_more c) rest
      end
  end.

Definition characters (s : string) : list string :=
  characters_from EmptyString 0 s.

Fixpoint ord_continue (acc : N) (continuation : string) : N :=
  match continuation with
  | EmptyString => acc
  | String c rest =>
      ord_continue (acc * 64 + (N_of_ascii c - 128))%N rest
  end.

(** [ord(ch)] for the bytes [ch] of one character. *)
Definition ord (ch : string) : N :=
  match ch with
  | EmptyString => 0%N
  | String lead continuation =>
      let n := N_of_ascii lead in
      ord_continue
        (if n <? 192 then n
         else if n <? 224 then n - 192
         else if n <? 240 then n - 224
         else if n <? 248 then n - 240
         else n)%N
        continuation
  end.

Section Split.
Context {Py : Platform}.

(** [s.split()]: the maximal runs of non-whitespace characters.  [cur] is
    the run being read, if one has begun. *)
Fixpoint split_from (cur : option string) (chars : list string)
    : list string :=
  match chars with
  | [] => match cur with Some token => [token] | None => [] end
  | ch :: rest =>
      if isspace (ord ch) then
        match cur with
        | Some token => token :: split_from None rest
        | None => split_from None rest
        end
      else split_from (Some (default EmptyString cur +:+ ch)) rest
  end.

Definition str_split (s : string) : list string :=
  split_from None (characters s).

(** The number of whitespace-separated tokens, counted directly: a token
    starts at every non-whitespace character that is the first character
    or follows a whitespace character. *)
Fixpoint token_starts (after_space : bool) (chars : list string) : nat :=
  match chars with
  | [] => 0
  | ch :: rest =>
      (if after_space && negb (isspace (ord ch)) then 1 else 0)
      + token_starts (isspace (ord ch)) rest
  end.

Definition count_tokens (s : string) : nat :=
  token_starts true (characters s).
End Split.

(** ** Data models *)

(** An entry of a conversation history: the dict with the keys ["role"],
    ["content"] and ["timestamp"] that [chat] appends.  (The pydantic class
    [Message] of the source is not used by any handler.) *)
Record Message : Type := {
  role : string;
  content : string;
  msg_timestamp : string;
}.

(** A validated request body; absent fields have taken their defaults. *)
Record ChatRequest {Py : Platform} : Type := {
  message : string;
  conversation_id : option string;
  model : option string;
  temperature : option pyfloat;
  max_tokens : option Z;
}.

Record ChatResponse : Type := {
  response : string;
  resp_conversation_id : string;
  resp_model : string;
  resp_timestamp : string;
  tokens_used : option nat;
}.

Record ModelInfo : Type := {
  name : string;
  description : string;
  capabilities : list string;
  version : string;
  status : string;
}.

Definition supported_models : list (string * ModelInfo) :=
  [ ("quantum-ai",
     {| name := "Quantum AI";
        description := "Advanced quantum-enhanced AI model with superior reasoning";
        capabilities :=
          [ "Natural language understanding";
            "Code generation and analysis";
            "Mathematical computations";
            "Multi-language support";
            "Context-aware responses";
            "Real-time information retrieval" ];
        version := "1.0.0";
        status := "active" |});
    ("quantum-pro",
     {| name := "Quantum Pro";
        description := "Professional-grade AI with enhanced capabilities";
        capabilities :=
          [ "All Quantum AI features";
            "Advanced data analysis";
            "Document processing";
            "Image understanding";
            "Complex reasoning";
            "Custom plugin support" ];
        version := "1.0.0";
        status := "active" |}) ].

(** The type name that Python prints for a decoded JSON value. *)
Definition py_type_name (v : json) : string :=
  match v with
  | JNull => "NoneType"
  | JBool _ => "bool"
  | JInt _ => "int"
  | JFloat _ => "float"
  | JStr _ => "str"
  | JArr _ => "list"
  | JObj _ => "dict"
  end.

(** ** Response generator *)

Definition greeting_response : string :=
  unlines
    [ "Hello! I'm Quantum Travel AI, your advanced AI assistant. How can I help you today? I can assist with coding, problem-solving, data analysis, and much more!" ].

Definition code_response : string :=
  unlines
    [ "I can help you with coding! Here's an example of what I can do:";
      EmptyString;
      "```python";
      "def quantum_algorithm(data):";
      "    '''";
      "    Advanced algorithm with quantum-inspired optimization";
      "    '''";
      "    result = []";
      "    for item in data:";
      "        processed = item ** 2  # Example processing";
      "        result.append(processed)";
      "    return result";
      EmptyString;
      "# Usage";
      "data = [1, 2, 3, 4, 5]";
      "output = quantum_algorithm(data)";
      "print(output)  # [1, 4, 9, 16, 25]";
      "```";
      EmptyString;
      "Would you like me to explain this code or help with a specific programming task?" ].

Definition math_response : string :=
  unlines
    [ "I can help with mathematical computations! Here's an example:";
      EmptyString;
      "**Problem**: Solve for x: 2x + 5 = 15";
      EmptyString;
      "**Solution**:";
      "1. Subtract 5 from both sides: 2x = 10";
      "2. Divide both sides by 2: x = 5";
      EmptyString;
      "**Answer**: x = 5";
      EmptyString;
      "I can handle complex equations, calculus, linear algebra, statistics, and more. What would you like to calculate?" ].

Definition information_response (message : string) : string :=
  unlines
    [ "Great question! As Quantum Travel AI, I'm designed to provide comprehensive answers.";
      EmptyString;
      "Based on your query: " +:+ dquote +:+ message +:+ dquote;
      EmptyString;
      "I can help you understand complex concepts through:";
      "- Detailed explanations with examples";
      "- Step-by-step breakdowns";
      "- Visual representations";
      "- Real-world applications";
      "- Related resources and references";
      EmptyString;
      "Could you provide more specific details about what you'd like to know? This will help me give you a more targeted and useful response." ].

Definition capabilities_response : string :=
  unlines
    [ "Here's what I can do as Quantum Travel AI:";
      EmptyString;
      "🚀 **Core Capabilities**:";
      "- Natural language conversations";
      "- Code generation and debugging";
      "- Mathematical problem solving";
      "- Data analysis and visualization";
      "- Multi-language support";
      "- Real-time information retrieval";
      EmptyString;
      "💡 **Advanced Features**:";
      "- Context-aware responses";
      "- File processing (documents, images)";
      "- Web search integration";
      "- Collaborative features";
      "- Custom plugin support";
      EmptyString;
      "🌐 **Global Support**:";
      "- Available 24/7";
      "- Multi-language understanding";
      "- Cultural context awareness";
      EmptyString;
      "How can I assist you specifically?" ].

Definition default_response (message : string) : string :=
  unlines
    [ "Thank you for your message! I'm Quantum Travel AI, and I'm here to help.";
      EmptyString;
      "You said: " +:+ dquote +:+ message +:+ dquote;
      EmptyString;
      "I understand you're looking for assistance. I can help with:";
      "- **Technical Questions**: Programming, algorithms, system design";
      "- **Problem Solving**: Mathematical, logical, analytical challenges";
      "- **Information**: Explanations, research, data analysis";
      "- **Creative Tasks**: Writing, brainstorming, content creation";
      EmptyString;
      "Please feel free to ask me anything specific, and I'll provide detailed, helpful responses tailored to your needs!" ].

(** The interface of [ai_engine]: [generate_response(message, model,
    context)], awaited by the handlers ("simulated - integrate real AI
    models here").  The arguments are Python objects; the call either
    returns the response text or raises. *)
Class AIEngine : Type := {
  generate : json → json → option (list Message) → Result string;
}.

Section Generator.
Context {Py : Platform}.

(** [any(w in text for w in words)] *)
Definition any_in (words : list string) (text : string) : bool :=
  existsb (λ w, str_contains w text) words.

(** [AIEngine.generate_response(message, model, context)], awaited after
    [asyncio.sleep(0.5)].  [model] and [context] are never examined; a
    message that is not a [str] has no [lower] method. *)
Definition generate_response (message model : json)
    (context : option (list Message)) : Result string :=
  match message with
  | JStr message =>
      let message_lower := str_lower message in
      if any_in ["hello"; "hi"; "hey"; "greetings"] message_lower then
        Ok greeting_response
      else if any_in ["code"; "program"; "function"; "python"; "javascript"]
                     message_lower then
        Ok code_response
      else if any_in ["calculate"; "math"; "equation"; "solve"]
                     message_lower then
        Ok math_response
      else if any_in ["what"; "how"; "why"; "explain"] message_lower then
        Ok (information_response message)
      else if any_in ["features"; "capabilities"; "can you"; "abilities"]
                     message_lower then
        Ok capabilities_response
      else
        Ok (default_response message)
  | _ =>
      Raise (AttributeError
               ("'" +:+ py_type_name message
                +:+ "' object has no attribute 'lower'"))
  end.

(** The engine of the source, [ai_engine = AIEngine()]. *)
Definition ai_engine : AIEngine :=
  {| generate := generate_response |}.
End Generator.

(** ** Program state and the handler monad *)

(** A [WebSocket] object, identified by its address. *)
Definition WebSocket : Type := nat.

Record LogRecord : Type := {
  level : string;
  text : string;
}.

(** The process state together with what the outside world has observed.
    [active_connections] is [manager.active_connections], a Python dict in
    insertion order; [broken] lists the channels whose transport has failed,
    with the exception their next [accept] or [send_text] raises; [outbox]
    holds the frames sent so far, oldest first; [clock] counts the calls of
    [datetime.utcnow()]. *)
Record State : Type := {
  conversation_history : gmap string (list Message);
  active_connections : list (string * WebSocket);
  outbox : list (WebSocket * string);
  broken : gmap WebSocket exn;
  log : list LogRecord;
  clock : nat;
}.

Definition initial_state : State :=
  {| conversation_history := ∅; active_connections := []; outbox := [];
     broken := ∅; log := []; clock := 0 |}.

Definition with_history (f : gmap string (list Message) → gmap string (list Message))
    (st : State) : State :=
  {| conversation_history := f (conversation_history st);
     active_connections := active_connections st; outbox := outbox st;
     broken := broken st; log := log st; clock := clock st |}.

Definition with_connections (f : list (string * WebSocket) → list (string * WebSocket))
    (st : State) : State :=
  {| conversation_history := conversation_history st;
     active_connections := f (active_connections st); outbox := outbox st;
     broken := broken st; log := log st; clock := clock st |}.

Definition with_outbox (f : list (WebSocket * string) → list (WebSocket * string))
    (st : State) : State :=
  {| conversation_history := conversation_history st;
     active_connections := active_connections st; outbox := f (outbox st);
     broken := broken st; log := log st; clock := clock st |}.

Definition with_log (f : list LogRecord → list LogRecord) (st : State) : State :=
  {| conversation_history := conversation_history st;
     active_connections := active_connections st; outbox := outbox st;
     broken := broken st; log := f (log st); clock := clock st |}.

Definition tick (st : State) : State :=
  {| conversation_history := conversation_history st;
     active_connections := active_connections st; outbox := outbox st;
     broken := broken st; log := log st; clock := S (clock st) |}.

(** A computation reads and updates the state and returns or raises; the
    state reached when an exception is raised is kept. *)
Definition M (A : Type) : Type := State → Result A * State.

#[export] Instance M_ret : MRet M := λ A a st, (Ok a, st).
#[export] Instance M_bind : MBind M := λ A B f m st,
  match m st with
  | (Ok a, st') => f a st'
  | (Raise e, st') => (Raise e, st')
  end.

Definition raise {A} (e : exn) : M A := λ st, (Raise e, st).
Definition gets {A} (f : State → A) : M A := λ st, (Ok (f st), st).
Definition modify (f : State → State) : M unit := λ st, (Ok tt, f st).
Definition lift {A} (r : Result A) : M A := λ st, (r, st).

(** [try: body except Exception as e: handler e] *)
Definition try_catch {A} (body : M A) (handler : exn → M A) : M A := λ st,
  match body st with
  | (Ok a, st') => (Ok a, st')
  | (Raise e, st') => handler e st'
  end.

Definition logger_info (msg : string) : M unit :=
  modify (with_log (λ l, l ++ [{| level := "INFO"; text := msg |}])).
Definition logger_error (msg : string) : M unit :=
  modify (with_log (λ l, l ++ [{| level := "ERROR"; text := msg |}])).

Section Clock.
Context {Py : Platform}.
(** [datetime.utcnow()] *)
Definition utcnow : M datetime :=
  λ st, (Ok (utcnow_at (clock st)), tick st).
End Clock.

(** ** Python dicts in insertion order *)

Section Dict.
Context {V : Type}.

Fixpoint dict_get (k : string) (d : list (string * V)) : option V :=
  match d with
  | [] => None
  | (k', v) :: d' => if decide (k = k') then Some v else dict_get k d'
  end.

(** [d[k] = v]: an existing key keeps its position. *)
Fixpoint dict_set (k : string) (v : V) (d : list (string * V)) : list (string * V) :=
  match d with
  | [] => [(k, v)]
  | (k', v') :: d' =>
      if decide (k = k') then (k, v) :: d' else (k', v') :: dict_set k v d'
  end.

(** [del d[k]].  The keys of a dict are distinct, so this removes its one
    entry for [k]; on a list that repeats [k], every entry for [k] goes. *)
Fixpoint dict_del (k : string) (d : list (string * V)) : list (string * V) :=
  match d with
  | [] => []
  | (k', v') :: d' =>
      if decide (k = k') then dict_del k d' else (k', v') :: dict_del k d'
  end.

Definition dict_values (d : list (string * V)) : list V := d.*2.
End Dict.

(** ** ConnectionManager *)

(** The state of a duplex session. *)
Inductive Session : Type := Open | Closed.

Definition accept (websocket : WebSocket) : M unit := λ st,
  match broken st !! websocket with
  | Some e => (Raise e, st)
  | None => (Ok tt, st)
  end.

Definition send_text (websocket : WebSocket) (data : string) : M unit := λ st,
  match broken st !! websocket with
  | Some e => (Raise e, st)
  | None => (Ok tt, with_outbox (λ o, o ++ [(websocket, data)]) st)
  end.

Definition connect (websocket : WebSocket) (client_id : string) : M unit :=
  accept websocket;;
  modify (with_connections (dict_set client_id websocket));;
  n ← gets (λ st, length (active_connections st));
  logger_info ("Client " +:+ client_id +:+ " connected. Total connections: "
               +:+ pretty n).

Definition disconnect (client_id : string) : M unit :=
  conns ← gets active_connections;
  if decide (is_Some (dict_get client_id conns)) then
    modify (with_connections (dict_del client_id));;
    n ← gets (λ st, length (active_connections st));
    logger_info ("Client " +:+ client_id +:+ " disconnected. Total connections: "
                 +:+ pretty n)
  else mret tt.

Definition send_message (msg client_id : string) : M unit :=
  conns ← gets active_connections;
  match dict_get client_id conns with
  | Some websocket => send_text websocket msg
  | None => mret tt
  end.

(** [for x in xs: body x] *)
Fixpoint for_each {A} (xs : list A) (body : A → M unit) : M unit :=
  match xs with
  | [] => mret tt
  | x :: xs' => body x;; for_each xs' body
  end.

Definition broadcast (msg : string) : M unit :=
  conns ← gets active_connections;
  for_each (dict_values conns) (λ connection, send_text connection msg).

(** ** HTTP handlers *)

Record HealthResponse : Type := {
  health_status : string;
  health_service : string;
  health_version : string;
  health_timestamp : string;
  health_active_connections : nat;
}.

Record HistoryResponse : Type := {
  hist_conversation_id : string;
  messages : list Message;
}.

Record StatsResponse : Type := {
  total_conversations : nat;
  stats_active_connections : nat;
  stats_supported_models : nat;
  uptime : string;
  stats_version : string;
}.

Record UploadFile : Type := {
  filename : string;
  content_type : string;
  (** what [await file.read()] yields *)
  file_read : Result string;
}.

Record UploadResponse : Type := {
  up_filename : string;
  up_size : nat;
  up_content_type : string;
  up_message : string;
  up_timestamp : string;
}.

(** The status line the framework sends for the outcome of a handler: a
    handler that returns answers 200, an [HTTPException] answers with its
    own status code, any other exception is an internal server error. *)
Definition http_status {A} (r : Result A) : nat :=
  match r with
  | Ok _ => 200
  | Raise (HTTPException code _) => code
  | Raise _ => 500
  end.

Section Handlers.
Context {Py : Platform} {Engine : AIEngine}.

(** [GET /] ; [frontend] is the content of [frontend/index.html] when
    that file exists. *)
Definition root (frontend : option string) : M string :=
  match frontend with
  | Some html => mret html
  | None =>
      mret (unlines
        [ EmptyString;
          "    <html>";
          "        <head><title>Quantum Travel AI</title></head>";
          "        <body>";
          "            <h1>Welcome to Quantum Travel AI</h1>";
          "            <p>Advanced Real-Time AI Communication Platform</p>";
          "            <p>Please set up the frontend to access the full interface.</p>";
          "        </body>";
          "    </html>";
          "    " ])
  end.

Definition health_check : M HealthResponse :=
  t ← utcnow;
  n ← gets (λ st, length (active_connections st));
  mret {| health_status := "healthy";
          health_service := "Quantum Travel AI";
          health_version := "1.0.0";
          health_timestamp := isoformat t;
          health_active_connections := n |}.

Definition get_models : M (list ModelInfo) :=
  mret (dict_values supported_models).

(** [f"conv_{datetime.utcnow().timestamp()}"] *)
Definition fresh_conversation_id : M string :=
  t ← utcnow;
  mret ("conv_" +:+ float_str (timestamp t)).

(** [conversation_history[conversation_id].append(m)] *)
Definition history_append (conversation_id : string) (m : Message) : M unit :=
  hist ← gets conversation_history;
  match hist !! conversation_id with
  | Some l => modify (with_history <[conversation_id := l ++ [m]]>)
  | None => raise (KeyError conversation_id)
  end.

(** [conversation_history[conversation_id]] *)
Definition history_lookup (conversation_id : string) : M (list Message) :=
  hist ← gets conversation_history;
  match hist !! conversation_id with
  | Some l => mret l
  | None => raise (KeyError conversation_id)
  end.

(** The part of [chat] before [await ai_engine.generate_response(...)]:
    resolve the conversation id, create the history if needed, append the
    user message. *)
Definition chat_prologue (request : ChatRequest) : M string :=
  conversation_id ←
    match conversation_id request with
    | Some s => if str_is_empty s then fresh_conversation_id else mret s
    | None => fresh_conversation_id
    end;
  hist ← gets conversation_history;
  (if decide (is_Some (hist !! conversation_id)) then mret tt
   else modify (with_history <[conversation_id := []]>));;
  t ← utcnow;
  let user_message :=
    {| role := "user"; content := message request;
       msg_timestamp := isoformat t |} in
  history_append conversation_id user_message;;
  mret conversation_id.

(** The part of [chat] after the generator has returned [ai_response]:
    append the assistant message and build the [ChatResponse].  Its
    [model] field is declared [str], so the constructor rejects the value
    [None] of a request whose model is [null] with a
    [ValidationError]. *)
Definition chat_epilogue (request : ChatRequest) (conversation_id : string)
    (ai_response : string) : M ChatResponse :=
  t ← utcnow;
  let assistant_message :=
    {| role := "assistant"; content := ai_response;
       msg_timestamp := isoformat t |} in
  history_append conversation_id assistant_message;;
  t' ← utcnow;
  match model request with
  | Some m =>
      mret {| response := ai_response;
              resp_conversation_id := conversation_id;
              resp_model := m;
              resp_timestamp := isoformat t';
              tokens_used :=
                Some (length (str_split (message request))
                      + length (str_split ai_response)) |}
  | None => raise (ValidationError model_validation_error)
  end.

(** [except Exception as e:] of [chat] *)
Definition chat_except {A} (e : exn) : M A :=
  logger_error ("Error processing chat request: " +:+ exn_str e);;
  raise (HTTPException 500 (exn_str e)).

Definition model_object (request : ChatRequest) : json :=
  match model request with
  | Some m => JStr m
  | None => JNull
  end.

(** [POST /api/chat], run without interruption. *)
Definition chat (request : ChatRequest) : M ChatResponse :=
  try_catch
    (conversation_id ← chat_prologue request;
     context ← history_lookup conversation_id;
     ai_response ← lift (generate (JStr (message request))
                                  (model_object request) (Some context));
     chat_epilogue request conversation_id ai_response)
    chat_except.

(** The two halves of [chat] on either side of its suspension point, for
    runs in which other handlers are scheduled in between.  [chat_begin]
    returns the conversation id and the outcome of the generator call that
    it started; [chat_resume] continues with that outcome. *)
Definition chat_begin (request : ChatRequest) : M (string * Result string) :=
  try_catch
    (conversation_id ← chat_prologue request;
     context ← history_lookup conversation_id;
     mret (conversation_id,
           generate (JStr (message request)) (model_object request)
                    (Some context)))
    chat_except.

Definition chat_resume (request : ChatRequest) (conversation_id : string)
    (outcome : Result string) : M ChatResponse :=
  try_catch
    (ai_response ← lift outcome;
     chat_epilogue request conversation_id ai_response)
    chat_except.

(** [GET /api/history/{conversation_id}] *)
Definition get_history (conversation_id : string) : M HistoryResponse :=
  hist ← gets conversation_history;
  match hist !! conversation_id with
  | Some l => mret {| hist_conversation_id := conversation_id; messages := l |}
  | None => mret {| hist_conversation_id := conversation_id; messages := [] |}
  end.

(** [POST /api/upload] *)
Definition upload_file (file : UploadFile) : M UploadResponse :=
  try_catch
    (content ← lift (file_read file);
     t ← utcnow;
     mret {| up_filename := filename file;
             up_size := String.length content;
             up_content_type := content_type file;
             up_message := "File uploaded successfully. Processing capability coming soon!";
             up_timestamp := isoformat t |})
    (λ e, raise (HTTPException 500 (exn_str e))).

(** [GET /api/stats] *)
Definition get_stats : M StatsResponse :=
  hist ← gets conversation_history;
  n ← gets (λ st, length (active_connections st));
  mret {| total_conversations := size hist;
          stats_active_connections := n;
          stats_supported_models := length supported_models;
          uptime := "operational";
          stats_version := "1.0.0" |}.

(** ** WebSocket endpoint *)

(** [message_data.get(key, default)]; only a dict has [get]. *)
Definition json_get (message_data : json) (key : string) (fallback : json)
    : Result json :=
  match message_data with
  | JObj fields => Ok (default fallback (dict_get key fields))
  | _ => Raise (AttributeError
                  ("'" +:+ py_type_name message_data
                   +:+ "' object has no attribute 'get'"))
  end.

(** One iteration of the [while True] loop; [received] is the outcome of
    [await websocket.receive_text()]. *)
Definition ws_turn (client_id : string) (received : Result string) : M unit :=
  data ← lift received;
  message_data ←
    match json_loads data with
    | Some v => mret v
    | None => raise (JSONDecodeError (json_error data))
    end;
  user_message ← lift (json_get message_data "message" (JStr EmptyString));
  model ← lift (json_get message_data "model" (JStr "quantum-ai"));
  ai_response ← lift (generate user_message model None);
  t ← utcnow;
  send_message
    (json_dumps (JObj [ ("type", JStr "message");
                        ("message", JStr ai_response);
                        ("model", model);
                        ("timestamp", JStr (isoformat t)) ]))
    client_id.

Definition ws_welcome (client_id : string) : M unit :=
  t ← utcnow;
  send_message
    (json_dumps (JObj [ ("type", JStr "connection");
                        ("message", JStr "Connected to Quantum Travel AI");
                        ("client_id", JStr client_id);
                        ("timestamp", JStr (isoformat t)) ]))
    client_id.

(** The two [except] clauses of [websocket_endpoint]. *)
Definition ws_except (client_id : string) (e : exn) : M unit :=
  match e with
  | WebSocketDisconnect => disconnect client_id
  | _ =>
      logger_error ("WebSocket error: " +:+ exn_str e);;
      disconnect client_id
  end.

Fixpoint ws_loop (client_id : string) (frames : list (Result string)) : M unit :=
  match frames with
  | [] => mret tt
  | received :: frames' =>
      ws_turn client_id received;;
      ws_loop client_id frames'
  end.

(** [websocket_endpoint] run on the inbound [frames]: it ends [Closed]
    when the handler has returned, and [Open] when all frames have been
    answered and the loop is waiting in [receive_text]. *)
Definition websocket_endpoint (websocket : WebSocket) (client_id : string)
    (frames : list (Result string)) : M Session :=
  connect websocket client_id;;
  try_catch
    (ws_welcome client_id;;
     ws_loop client_id frames;;
     mret Open)
    (λ e, ws_except client_id e;; mret Closed).
End Handlers.

(** ** A reference platform

    One platform on which the handlers can be run: ASCII case folding; the
    whitespace characters of Unicode; a clock whose datetimes and timestamps
    are counts of microseconds, one more at each reading, printed in
    decimal; and a small JSON codec for ASCII text that stands in for the
    [json] module (no [\u] escapes on input, bytes above 127 written
    unchanged on output).  The properties below are proved for every
    platform; this one only serves to evaluate them on examples. *)

Module Reference.

Definition ascii_lower (c : ascii) : ascii :=
  let n := nat_of_ascii c in
  if (65 <=? n) && (n <=? 90) then ascii_of_nat (n + 32) else c.

Fixpoint lower (s : string) : string :=
  match s with
  | EmptyString => EmptyString
  | String c rest => String (ascii_lower c) (lower rest)
  end.

(** The code points that Python treats as whitespace. *)
Definition unicode_isspace (n : N) : bool :=
  (((9 <=? n) && (n <=? 13)) || ((28 <=? n) && (n <=? 32))
   || (n =? 133) || (n =? 160) || (n =? 5760)
   || ((8192 <=? n) && (n <=? 8202))
   || (n =? 8232) || (n =? 8233) || (n =? 8239) || (n =? 8287)
   || (n =? 12288))%N.

Definition epoch_micros : N := 1700000000000000.

(** *** Decoder *)

Definition is_json_space (c : ascii) : bool :=
  let n := nat_of_ascii c in
  (n =? 32) || (n =? 9) || (n =? 10) || (n =? 13).

Fixpoint skip_ws (s : string) : string :=
  match s with
  | String c rest => if is_json_space c then skip_ws rest else s
  | EmptyString => s
  end.

Definition is_digit (c : ascii) : bool :=
  let n := nat_of_ascii c in (48 <=? n) && (n <=? 57).

Definition is_float_char (c : ascii) : bool :=
  is_digit c || Ascii.eqb c "." || Ascii.eqb c "e" || Ascii.eqb c "E"
  || Ascii.eqb c "+" || Ascii.eqb c "-".

(** The longest prefix of characters satisfying [p], and the rest. *)
Fixpoint span (p : ascii → bool) (s : string) : string * string :=
  match s with
  | String c rest =>
      if p c then let '(a, b) := span p rest in (String c a, b)
      else (EmptyString, s)
  | EmptyString => (EmptyString, EmptyString)
  end.

Fixpoint digits_value (acc : N) (s : string) : N :=
  match s with
  | String c rest =>
      digits_value (acc * 10 + N.of_nat (nat_of_ascii c - 48))%N rest
  | EmptyString => acc
  end.

Definition parse_number (s : string) : option (json * string) :=
  let '(neg, s1) :=
    match s with
    | String "-" rest => (true, rest)
    | _ => (false, s)
    end in
  let '(ds, s2) := span is_digit s1 in
  if str_is_empty ds then None
  else
    let '(frac, s3) := span is_float_char s2 in
    if str_is_empty frac then
      let v := Z.of_N (digits_value 0 ds) in
      Some (JInt (if neg then (- v)%Z else v), s2)
    else
      Some (JFloat ((if neg then "-" else EmptyString) +:+ ds +:+ frac), s3).

(** The characters of a string literal after its opening quote. *)
Fixpoint parse_string_body (s : string) : option (string * string) :=
  match s with
  | EmptyString => None
  | String c rest =>
      if Ascii.eqb c "034" then Some (EmptyString, rest)
      else if Ascii.eqb c "\" then
        match rest with
        | String e rest' =>
            let unescaped :=
              if Ascii.eqb e "034" then Some "034"%char
              else if Ascii.eqb e "\" then Some "\"%char
              else if Ascii.eqb e "/" then Some "/"%char
              else if Ascii.eqb e "b" then Some "008"%char
              else if Ascii.eqb e "f" then Some "012"%char
              else if Ascii.eqb e "n" then Some "010"%char
              else if Ascii.eqb e "r" then Some "013"%char
              else if Ascii.eqb e "t" then Some "009"%char
              else None in
            match unescaped with
            | Some u =>
                '(body, after) ← parse_string_body rest';
                Some (String u body, after)
            | None => None
            end
        | EmptyString => None
        end
      else if nat_of_ascii c <? 32 then None
      else
        '(body, after) ← parse_string_body rest;
        Some (String c body, after)
  end.

Definition strip_prefix (p s : string) : option string :=
  if String.prefix p s
  then Some (String.substring (String.length p)
                              (String.length s - String.length p) s)
  else None.

Fixpoint parse_value (fuel : nat) (s : string) : option (json * string) :=
  match fuel with
  | 0 => None
  | S fuel' =>
      match skip_ws s with
      | String "{" rest =>
          match skip_ws rest with
          | String "}" after => Some (JObj [], after)
          | rest' => parse_members fuel' rest' []
          end
      | String "[" rest =>
          match skip_ws rest with
          | String "]" after => Some (JArr [], after)
          | rest' => parse_elements fuel' rest' []
          end
      | String "034" rest =>
          '(body, after) ← parse_string_body rest;
          Some (JStr body, after)
      | s' =>
          match strip_prefix "null" s', strip_prefix "true" s',
                strip_prefix "false" s' with
          | Some after, _, _ => Some (JNull, after)
          | _, Some after, _ => Some (JBool true, after)
          | _, _, Some after => Some (JBool false, after)
          | _, _, _ => parse_number s'
          end
      end
  end
with parse_elements (fuel : nat) (s : string) (acc : list json)
    : option (json * string) :=
  match fuel with
  | 0 => None
  | S fuel' =>
      '(v, after) ← parse_value fuel' s;
      match skip_ws after with
      | String "," rest => parse_elements fuel' rest (acc ++ [v])
      | String "]" rest => Some (JArr (acc ++ [v]), rest)
      | _ => None
      end
  end
with parse_members (fuel : nat) (s : string) (acc : list (string * json))
    : option (json * string) :=
  match fuel with
  | 0 => None
  | S fuel' =>
      match skip_ws s with
      | String "034" rest =>
          '(key, after_key) ← parse_string_body rest;
          match skip_ws after_key with
          | String ":" rest' =>
              '(v, after) ← parse_value fuel' rest';
              match skip_ws after with
              | String "," rest'' =>
                  parse_members fuel' rest'' (dict_set key v acc)
              | String "}" rest'' => Some (JObj (dict_set key v acc), rest'')
              | _ => None
              end
          | _ => None
          end
      | _ => None
      end
  end.

Definition loads (s : string) : option json :=
  '(v, after) ← parse_value (2 * String.length s + 2) s;
  if str_is_empty (skip_ws after) then Some v else None.

(** *** Encoder *)

Definition hex_digit (n : nat) : ascii :=
  if n <? 10 then ascii_of_nat (48 + n) else ascii_of_nat (87 + n).

Definition escape_char (c : ascii) : string :=
  let n := nat_of_ascii c in
  if Ascii.eqb c "034" then "\" +:+ dquote
  else if Ascii.eqb c "\" then "\\"
  else if n =? 10 then "\n"
  else if n =? 13 then "\r"
  else if n =? 9 then "\t"
  else if n =? 8 then "\b"
  else if n =? 12 then "\f"
  else if n <? 32 then
    "\u00" +:+ String (hex_digit (n / 16)) (String (hex_digit (n mod 16)) EmptyString)
  else String c EmptyString.

Fixpoint escape (s : string) : string :=
  match s with
  | EmptyString => EmptyString
  | String c rest => escape_char c +:+ escape rest
  end.

Definition quote (s : string) : string := dquote +:+ escape s +:+ dquote.

Fixpoint join (sep : string) (ss : list string) : string :=
  match ss with
  | [] => EmptyString
  | [s] => s
  | s :: ss' => s +:+ sep +:+ join sep ss'
  end.

Fixpoint dumps (v : json) : string :=
  match v with
  | JNull => "null"
  | JBool true => "true"
  | JBool false => "false"
  | JInt n => pretty n
  | JFloat literal => literal
  | JStr s => quote s
  | JArr items => "[" +:+ join ", " (List.map dumps items) +:+ "]"
  | JObj fields =>
      "{" +:+ join ", " (List.map (λ kv, quote kv.1 +:+ ": " +:+ dumps kv.2) fields)
      +:+ "}"
  end.

(** The report of pydantic 2 for a [None] in the [str] field [model]
    (a further line with a documentation link follows it there). *)
Definition pydantic_string_type_error : string :=
  unlines
    [ "1 validation error for ChatResponse";
      "model";
      "  Input should be a valid string [type=string_type, input_value=None, input_type=NoneType]" ].

#[export] Instance ascii_platform : Platform := {
  datetime := N;
  pyfloat := N;
  utcnow_at n := (epoch_micros + N.of_nat n)%N;
  isoformat t := pretty t;
  timestamp t := t;
  float_str x := pretty x;
  float_str_inj := _;
  str_lower := lower;
  isspace := unicode_isspace;
  json_loads := loads;
  json_error _ := "Expecting value: line 1 column 1 (char 0)";
  json_dumps := dumps;
  model_validation_error := pydantic_string_type_error;
}.

End Reference.

(** ** Runs of the system *)

Section Runs.
Context {Py : Platform} {Engine : AIEngine}.

(** Chat requests handled one after another, each to completion; the run
    stops at the first request that fails. *)
Fixpoint chat_each (requests : list ChatRequest) : M (list ChatResponse) :=
  match requests with
  | [] => mret []
  | request :: requests' =>
      resp ← chat request;
      resps ← chat_each requests';
      mret (resp :: resps)
  end.

(** Two chat requests whose handlers overlap: the second starts while
    the first is suspended in the generator. *)
Definition chat_overlapped (request1 request2 : ChatRequest)
    : M (ChatResponse * ChatResponse) :=
  started1 ← chat_begin request1;
  started2 ← chat_begin request2;
  resp1 ← chat_resume request1 started1.1 started1.2;
  resp2 ← chat_resume request2 started2.1 started2.2;
  mret (resp1, resp2).

(** [websocket_endpoint] in parts: connecting (with the welcome message),
    and one turn of the loop, each under the handler's [except] clauses.
    Other handlers may run between two parts; a part itself is run here
    without interruption, although a turn awaits the generator and the
    send. *)
Definition ws_open (websocket : WebSocket) (client_id : string) : M Session :=
  connect websocket client_id;;
  try_catch (ws_welcome client_id;; mret Open)
            (λ e, ws_except client_id e;; mret Closed).

Definition ws_step (client_id : string) (received : Result string) : M Session :=
  try_catch (ws_turn client_id received;; mret Open)
            (λ e, ws_except client_id e;; mret Closed).

Fixpoint ws_steps (session : Session) (client_id : string)
    (frames : list (Result string)) : M Session :=
  match session, frames with
  | Open, received :: frames' =>
      session' ← ws_step client_id received;
      ws_steps session' client_id frames'
  | _, _ => mret session
  end.

(** What can happen to the system: a handler runs (whole, or one of its
    parts), a broadcast is made, or the transport of a channel fails. *)
Inductive Operation : Type :=
  | OpRoot (frontend : option string)
  | OpHealthCheck
  | OpGetModels
  | OpChat (request : ChatRequest)
  | OpChatBegin (request : ChatRequest)
  | OpChatResume (request : ChatRequest) (conversation_id : string)
                 (outcome : Result string)
  | OpGetHistory (conversation_id : string)
  | OpUploadFile (file : UploadFile)
  | OpGetStats
  | OpWebsocketEndpoint (websocket : WebSocket) (client_id : string)
                        (frames : list (Result string))
  | OpWsOpen (websocket : WebSocket) (client_id : string)
  | OpWsStep (client_id : string) (received : Result string)
  | OpBroadcast (msg : string)
  | OpTransportFailure (websocket : WebSocket) (e : exn).

Definition state_after {A} (m : M A) (st : State) : State := (m st).2.

Definition with_broken (f : gmap WebSocket exn → gmap WebSocket exn)
    (st : State) : State :=
  {| conversation_history := conversation_history st;
     active_connections := active_connections st; outbox := outbox st;
     broken := f (broken st); log := log st; clock := clock st |}.

Definition exec (op : Operation) (st : State) : State :=
  match op with
  | OpRoot frontend => state_after (root frontend) st
  | OpHealthCheck => state_after health_check st
  | OpGetModels => state_after get_models st
  | OpChat request => state_after (chat request) st
  | OpChatBegin request => state_after (chat_begin request) st
  | OpChatResume request conversation_id outcome =>
      state_after (chat_resume request conversation_id outcome) st
  | OpGetHistory conversation_id =>
      state_after (get_history conversation_id) st
  | OpUploadFile file => state_after (upload_file file) st
  | OpGetStats => state_after get_stats st
  | OpWebsocketEndpoint websocket client_id frames =>
      state_after (websocket_endpoint websocket client_id frames) st
  | OpWsOpen websocket client_id =>
      state_after (ws_open websocket client_id) st
  | OpWsStep client_id received =>
      state_after (ws_step client_id received) st
  | OpBroadcast msg => state_after (broadcast msg) st
  | OpTransportFailure websocket e => with_broken <[websocket := e]> st
  end.

(** The operations that run code of [chat]. *)
Definition is_chat (op : Operation) : bool :=
  match op with
  | OpChat _ | OpChatBegin _ | OpChatResume _ _ _ => true
  | _ => false
  end.

Definition exec_all (ops : list Operation) (st : State) : State :=
  foldl (λ st op, exec op st) st ops.

(** The frames put on the wire while [m] runs from [st]. *)
Definition sent_during {A} (m : M A) (st : State) : list (WebSocket * string) :=
  drop (length (outbox st)) (outbox (state_after m st)).
End Runs.

(** ** Properties under study *)

(** Every conversation that exists in [st] exists in [st'], with the
    messages of [st] as a prefix of its messages in [st']. *)
Definition append_only (st st' : State) : Prop :=
  ∀ conversation_id l,
    conversation_history st !! conversation_id = Some l →
    ∃ l', conversation_history st' !! conversation_id = Some l'
          ∧ l `prefix_of` l'.

Definition role_and_content (m : Message) : string * string :=
  (role m, content m).

Section Claims.
Context {Py : Platform} {Engine : AIEngine}.

Definition exchange (request : ChatRequest) (resp : ChatResponse)
    : list (string * string) :=
  [("user", message request); ("assistant", response resp)].

Definition transcript (requests : list ChatRequest)
    (responses : list ChatResponse) : list (string * string) :=
  concat (zip_with exchange requests responses).

(** After the [requests] have all succeeded from [st], the history of
    [conversation_id] consists of their [2N] messages, in order. *)
Definition history_lists_exchanges (conversation_id : string)
    (requests : list ChatRequest) (st : State) : Prop :=
  ∀ responses st',
    chat_each requests st = (Ok responses, st') →
    ∃ body,
      get_history conversation_id st' = (Ok body, st')
      ∧ length (messages body) = 2 * length requests
      ∧ role_and_content <$> messages body = transcript requests responses.

(** The session of [client_id] is open and registered after the frames
    [frames] have been processed. *)
Definition session_survives (websocket : WebSocket) (client_id : string)
    (frames : list (Result string)) (st : State) : Prop :=
  let '(r, st') := websocket_endpoint websocket client_id frames st in
  r = Ok Open ∧ dict_get client_id (active_connections st') = Some websocket.

(** Every registered channel whose transport works receives [msg] in the
    course of [broadcast msg]. *)
Definition broadcast_reaches_healthy (msg : string) (st : State) : Prop :=
  ∀ websocket,
    websocket ∈ dict_values (active_connections st) →
    broken st !! websocket = None →
    (websocket, msg) ∈ sent_during (broadcast msg) st.
End Claims.

(** ** Descriptions used in the statements *)

Section Descriptions.
Context {Py : Platform} {Engine : AIEngine}.

(** The identifier generated from the clock reading available in [st]. *)
Definition fresh_id (st : State) : string :=
  "conv_" +:+ float_str (timestamp (utcnow_at (clock st))).

(** The conversation that [chat request] run from [st] writes to. *)
Definition resolved_id (request : ChatRequest) (st : State) : string :=
  match conversation_id request with
  | Some s => if str_is_empty s then fresh_id st else s
  | None => fresh_id st
  end.

(** Whether [chat request] reads the clock to generate an identifier. *)
Definition generates_id (request : ChatRequest) : bool :=
  match conversation_id request with
  | Some s => str_is_empty s
  | None => true
  end.

(** The timestamp given to the user message of [request]. *)
Definition user_timestamp (request : ChatRequest) (st : State) : string :=
  isoformat (utcnow_at (if generates_id request then S (clock st)
                        else clock st)).

Definition user_message (request : ChatRequest) (t : string) : Message :=
  {| role := "user"; content := message request; msg_timestamp := t |}.

Definition assistant_message (ai_response t : string) : Message :=
  {| role := "assistant"; content := ai_response; msg_timestamp := t |}.

(** The messages stored for a conversation, none if it does not exist. *)
Definition stored (conversation_id : string) (st : State) : list Message :=
  default [] (conversation_history st !! conversation_id).

(** The history of its conversation as [chat request] hands it to the
    generator: what was stored, then the user message. *)
Definition chat_context (request : ChatRequest) (st : State) : list Message :=
  stored (resolved_id request st) st
  ++ [user_message request (user_timestamp request st)].

(** The generator call made by [chat request] run from [st]. *)
Definition generator_outcome (request : ChatRequest) (st : State)
    : Result string :=
  generate (JStr (message request)) (model_object request)
           (Some (chat_context request st)).

(** Two states that differ at most in their conversation store, log and
    clock. *)
Definition same_connections (st st' : State) : Prop :=
  active_connections st' = active_connections st
  ∧ outbox st' = outbox st
  ∧ broken st' = broken st.
End Descriptions.

(** The transport of [websocket] works. *)
Definition healthy (st : State) (websocket : WebSocket) : Prop :=
  broken st !! websocket = None.

(** The frames that carry [msg] to the [channels], in order. *)
Definition deliveries (msg : string) (channels : list WebSocket)
    : list (WebSocket * string) :=
  (λ websocket, (websocket, msg)) <$> channels.

(** [m] relates every state to the state it leaves behind by [P]. *)
Definition preserves {A} (P : State → State → Prop) (m : M A) : Prop :=
  ∀ st, P st (state_after m st).

Definition same_history (st st' : State) : Prop :=
  conversation_history st' = conversation_history st.

Ltac unfold_m :=
  unfold try_catch, mbind, M_bind, mret, M_ret, gets, modify, raise, lift in *.

(** ** Sample data on the reference platform *)

Module Samples.
Import Reference.

(** An engine whose backend is down. *)
Definition failing_engine : AIEngine :=
  {| generate _ _ _ := Raise (RuntimeError "model backend unavailable") |}.

Definition request (msg : string) (conversation_id model : option string)
    : ChatRequest :=
  {| message := msg; conversation_id := conversation_id; model := model;
     temperature := None; max_tokens := Some 2000%Z |}.

Definition closed_transport : exn :=
  RuntimeError "Cannot call send once a close message has been sent.".

(** Two clients registered in this order, on the channels 0 and 1; [down]
    lists the channels that have lost their transport. *)
Definition two_clients (down : list WebSocket) : State :=
  {| conversation_history := ∅;
     active_connections := [("alice", 0); ("bob", 1)];
     outbox := [];
     broken := list_to_map ((λ ws, (ws, closed_transport)) <$> down);
     log := [];
     clock := 0 |}.

Definition malformed_frame : string := "{oops".
Definition hi_frame : string :=
  "{" +:+ dquote +:+ "message" +:+ dquote +:+ ": " +:+ dquote +:+ "hi" +:+ dquote +:+ "}".

Definition hello : ChatRequest :=
  request "Hello" (Some "trip") (Some "quantum-ai").
Definition what_is_python : ChatRequest :=
  request "What is Python?" (Some "trip") (Some "quantum-ai").
Definition hello_anonymous : ChatRequest :=
  request "Hello world" None (Some "quantum-ai").
Definition hello_unlisted_model : ChatRequest :=
  request "Hello" None (Some "gpt-9").
Definition hello_empty_id : ChatRequest :=
  request "Hello" (Some EmptyString) (Some "quantum-ai").
End Samples.

(** ** Further descriptions *)

(** The client ids of the registry are distinct, as the keys of a dict
    are. *)
Definition registry_ok (st : State) : Prop :=
  NoDup (active_connections st).*1.

Definition same_registry (st st' : State) : Prop :=
  active_connections st' = active_connections st.

(** The registry agrees with the state of the session of [client_id] on
    [websocket]: an open session is registered with its channel, a closed
    one has no entry. *)
Definition session_matches (websocket : WebSocket) (client_id : string)
    (session : Session) (st : State) : Prop :=
  match session with
  | Open => dict_get client_id (active_connections st) = Some websocket
  | Closed => dict_get client_id (active_connections st) = None
  end.

(** The record that [websocket_endpoint] logs for an exception. *)
Definition websocket_error_record (e : exn) : LogRecord :=
  {| level := "ERROR"; text := "WebSocket error: " +:+ exn_str e |}.

(** The records that [logger.error] has written. *)
Definition error_records (st : State) : list LogRecord :=
  filter (λ r, level r = "ERROR") (log st).

(** The four responses of the generator that do not depend on the
    message. *)
Definition fixed_responses : list string :=
  [greeting_response; code_response; math_response; capabilities_response].

Section Frames.
Context {Py : Platform}.

(** The acknowledgement that [websocket_endpoint] sends on connecting. *)
Definition connection_frame (client_id : string) (t : datetime) : string :=
  json_dumps (JObj [ ("type", JStr "connection");
                     ("message", JStr "Connected to Quantum Travel AI");
                     ("client_id", JStr client_id);
                     ("timestamp", JStr (isoformat t)) ]).

(** The answer that [websocket_endpoint] sends to a frame. *)
Definition message_frame (ai_response : string) (model : json)
    (t : datetime) : string :=
  json_dumps (JObj [ ("type", JStr "message");
                     ("message", JStr ai_response);
                     ("model", model);
                     ("timestamp", JStr (isoformat t)) ]).
End Frames.

Module MoreSamples.
Import Reference Samples.

(** The reference platform with a clock that has stopped. *)
Definition frozen_platform : Platform :=
  {| datetime := N;
     pyfloat := N;
     utcnow_at _ := epoch_micros;
     isoformat t := pretty t;
     timestamp t := t;
     float_str x := pretty x;
     float_str_inj := _;
     str_lower := lower;
     isspace := unicode_isspace;
     json_loads := loads;
     json_error _ := "Expecting value: line 1 column 1 (char 0)";
     json_dumps := dumps;
     model_validation_error := pydantic_string_type_error |}.

Definition frozen_request (msg : string) : ChatRequest (Py := frozen_platform) :=
  {| message := msg; conversation_id := None; model := Some "quantum-ai";
     temperature := None; max_tokens := Some 2000%Z |}.

Definition tell_me_more (conversation_id : string) : ChatRequest :=
  request "Tell me more" (Some conversation_id) (Some "quantum-ai").
Definition hello_paris : ChatRequest :=
  request "Hello" (Some "paris") (Some "quantum-ai").

(** U+00A0 NO-BREAK SPACE, in UTF-8. *)
Definition nbsp : string := String "194" (String "160" EmptyString).
Definition no_break_request : ChatRequest :=
  request ("a" +:+ nbsp +:+ "b") None (Some "quantum-ai").

Definition list_frame : string := "[1, 2]".
Definition number_message_frame : string :=
  "{" +:+ dquote +:+ "message" +:+ dquote +:+ ": 5}".
Definition empty_object_frame : string := "{}".

(** One client, registered on channel 3. *)
Definition one_client : State :=
  {| conversation_history := ∅;
     active_connections := [("alice", 3)];
     outbox := [];
     broken := ∅;
     log := [];
     clock := 0 |}.
End MoreSamples.

(** * Properties *)

Lemma prefix_append (p s : string) : String.prefix p (p +:+ s) = true.
Proof.
  induction p as [|c p IH]; simpl; [by destruct s|].
  by destruct (ascii_dec c c).
Qed.

Lemma str_app_empty_r (s : string) : s +:+ EmptyString = s.
Proof.
  induction s as [|x s IH]; [done|].
  change (String x (s +:+ EmptyString) = String x s). by rewrite IH.
Qed.

Lemma str_app_snoc (a : string) (c : ascii) (b : string) :
  (a +:+ String c EmptyString) +:+ b = a +:+ String c b.
Proof.
  induction a as [|x a IH]; [done|].
  change (String x ((a +:+ String c EmptyString) +:+ b)
          = String x (a +:+ String c b)).
  by rewrite IH.
Qed.

(** Cutting a string into characters loses nothing. *)
Lemma characters_from_concat cur missing s :
  foldr String.append EmptyString (characters_from cur missing s) = cur +:+ s.
Proof.
  revert cur missing. induction s as [|c rest IH]; intros cur missing.
  - simpl. destruct cur as [|x cur]; simpl; by rewrite ?str_app_empty_r.
  - destruct missing as [|missing]; simpl.
    + destruct cur as [|x cur]; simpl; by rewrite IH.
    + destruct (is_continuation c); simpl; rewrite IH;
        [apply str_app_snoc | done].
Qed.

Lemma characters_concat s :
  foldr String.append EmptyString (characters s) = s.
Proof. apply characters_from_concat. Qed.

Section SplitFacts.
Context {Py : Platform}.

Lemma split_from_length cur chars :
  length (split_from cur chars)
  = (if cur is Some _ then 1 else 0)
    + token_starts (if cur is Some _ then false else true) chars.
Proof.
  revert cur. induction chars as [|ch rest IH]; intros cur; simpl.
  - destruct cur; simpl; lia.
  - destruct (isspace (ord ch)) eqn:Hch.
    + destruct cur; simpl; rewrite IH; simpl; lia.
    + rewrite IH. destruct cur; simpl; lia.
Qed.

(** [len(s.split())] is the number of whitespace-separated tokens. *)
Lemma str_split_count s : length (str_split s) = count_tokens s.
Proof. unfold str_split, count_tokens. by rewrite split_from_length. Qed.
End SplitFacts.

(** ** How [chat] runs *)

Section ChatFacts.
Context {Py : Platform} {Engine : AIEngine}.

Lemma chat_prologue_spec request st :
∃ st1,
  chat_prologue request st = (Ok (resolved_id request st), st1)
  ∧ conversation_history st1
    = <[resolved_id request st := chat_context request st]>
        (conversation_history st)
  ∧ same_connections st st1 ∧ log st1 = log st.
Proof.
unfold chat_prologue, fresh_conversation_id, history_append, utcnow,
  chat_context, user_timestamp, generates_id, resolved_id, stored, fresh_id.
unfold_m.
destruct (conversation_id request) as [s|]; [destruct (str_is_empty s)|]; simpl.
all: match goal with |- context [decide (is_Some (?m !! ?k))] =>
       destruct (decide (is_Some (m !! k))) as [[l Hl]|Hn] end; simpl.
all: try (rewrite Hl; simpl; eexists; split; [reflexivity|]; simpl;
          split; [reflexivity | by repeat split]).
all: apply eq_None_not_Some in Hn; rewrite lookup_insert_eq, Hn; simpl.
all: eexists; split; [reflexivity|]; simpl.
all: rewrite insert_insert_eq; split; [reflexivity | by repeat split].
Qed.

Lemma chat_begin_spec request st :
∃ st1,
  chat_begin request st
  = (Ok (resolved_id request st, generator_outcome request st), st1)
  ∧ conversation_history st1
    = <[resolved_id request st := chat_context request st]>
        (conversation_history st)
  ∧ same_connections st st1 ∧ log st1 = log st.
Proof.
destruct (chat_prologue_spec request st) as (st1 & Hrun & Hhist & Hrest).
exists st1. split; [|done].
unfold chat_begin, history_lookup, generator_outcome. unfold_m.
rewrite Hrun, Hhist. by rewrite lookup_insert_eq.
Qed.

Lemma chat_split request st :
chat request st
= match chat_begin request st with
  | (Ok (conversation_id, outcome), st1) =>
      chat_resume request conversation_id outcome st1
  | (Raise e, st1) => (Raise e, st1)
  end.
Proof.
destruct (chat_begin_spec request st) as (st1 & Hrun & _).
rewrite Hrun.
destruct (chat_prologue_spec request st) as (st1' & Hpro & Hhist' & _).
revert Hrun. unfold chat, chat_begin, chat_resume, history_lookup,
  generator_outcome. unfold_m.
rewrite Hpro, Hhist', lookup_insert_eq. by intros [= <-].
Qed.

Lemma chat_epilogue_spec request cid ai st l :
conversation_history st !! cid = Some l →
∃ t t' st2,
  chat_epilogue request cid ai st
  = (match model request with
     | Some m =>
         Ok {| response := ai; resp_conversation_id := cid; resp_model := m;
               resp_timestamp := t';
               tokens_used := Some (length (str_split (message request))
                                    + length (str_split ai)) |}
     | None => Raise (ValidationError model_validation_error)
     end, st2)
  ∧ conversation_history st2
    = <[cid := l ++ [assistant_message ai t]]> (conversation_history st)
  ∧ same_connections st st2 ∧ log st2 = log st.
Proof.
intros Hl. unfold chat_epilogue, history_append, utcnow. unfold_m. simpl.
rewrite Hl. simpl.
exists (isoformat (utcnow_at (clock st))),
       (isoformat (utcnow_at (S (clock st)))).
destruct (model request); eexists; (split; [reflexivity|]); simpl;
  by repeat split.
Qed.

Lemma same_connections_trans st1 st2 st3 :
same_connections st1 st2 → same_connections st2 st3 → same_connections st1 st3.
Proof. unfold same_connections. intros (-> & -> & ->) (-> & -> & ->). done. Qed.

Lemma same_connections_log f st : same_connections st (with_log f st).
Proof. done. Qed.

(** What [chat] does, by the outcome of the generator call. *)
Lemma chat_cases request st :
let cid := resolved_id request st in
match generator_outcome request st with
| Raise e =>
    ∃ st', chat request st = (Raise (HTTPException 500 (exn_str e)), st')
           ∧ conversation_history st'
             = <[cid := chat_context request st]> (conversation_history st)
           ∧ same_connections st st'
| Ok ai =>
    ∃ t t' st',
      chat request st
      = (match model request with
         | Some m =>
             Ok {| response := ai; resp_conversation_id := cid;
                   resp_model := m; resp_timestamp := t';
                   tokens_used := Some (length (str_split (message request))
                                        + length (str_split ai)) |}
         | None =>
             Raise (HTTPException 500 model_validation_error)
         end, st')
      ∧ conversation_history st'
        = <[cid := chat_context request st ++ [assistant_message ai t]]>
            (conversation_history st)
      ∧ same_connections st st'
end.
Proof.
intros cid. rewrite chat_split.
destruct (chat_begin_spec request st) as (st1 & -> & Hhist & Hconn & _).
fold cid in Hhist |- *.
unfold chat_resume. destruct (generator_outcome request st) as [ai|e].
- destruct (chat_epilogue_spec request cid ai st1 (chat_context request st))
    as (t & t' & st2 & Hrun & Hhist2 & Hconn2 & _).
  { by rewrite Hhist, lookup_insert_eq. }
  rewrite Hhist, insert_insert_eq in Hhist2.
  unfold_m. rewrite Hrun. unfold chat_except. unfold_m.
  destruct (model request); simpl.
  + exists t, t', st2. eauto using same_connections_trans.
  + eexists t, t', _. split; [reflexivity|]. simpl. split; [done|].
    eauto using same_connections_trans.
- unfold chat_except. unfold_m. simpl. eexists. split; [reflexivity|]. simpl.
  split; [done|]. done.
Qed.
End ChatFacts.

Section ChatResults.
Context {Py : Platform} {Engine : AIEngine}.

(** A successful [chat]: what it returns and what it stores. *)
Lemma chat_success request st resp st' :
  chat request st = (Ok resp, st') →
  ∃ t,
    generator_outcome request st = Ok (response resp)
    ∧ model request = Some (resp_model resp)
    ∧ resp_conversation_id resp = resolved_id request st
    ∧ tokens_used resp
      = Some (length (str_split (message request))
              + length (str_split (response resp)))
    ∧ conversation_history st'
      = <[resolved_id request st :=
            chat_context request st ++ [assistant_message (response resp) t]]>
          (conversation_history st)
    ∧ same_connections st st'.
Proof.
  intros Hrun. pose proof (chat_cases request st) as Hcases. simpl in Hcases.
  destruct (generator_outcome request st) as [ai|e].
  - destruct Hcases as (t & t' & st'' & Hchat & Hhist & Hconn).
    rewrite Hrun in Hchat. destruct (model request) as [m|]; [|done].
    injection Hchat as -> <-. exists t. done.
  - destruct Hcases as (st'' & Hchat & _). by rewrite Hrun in Hchat.
Qed.

(** A failed [chat] is an internal server error, whatever step failed. *)
Lemma chat_failure request st e st' :
  chat request st = (Raise e, st') →
  (∃ detail, e = HTTPException 500 detail)
  ∧ ∃ l, conversation_history st' !! resolved_id request st = Some l
         ∧ chat_context request st `prefix_of` l.
Proof.
  intros Hrun. pose proof (chat_cases request st) as Hcases. simpl in Hcases.
  destruct (generator_outcome request st) as [ai|e0].
  - destruct Hcases as (t & t' & st'' & Hchat & Hhist & Hconn).
    rewrite Hrun in Hchat. destruct (model request) as [m|]; [done|].
    injection Hchat as -> <-. split; [by eexists|].
    rewrite Hhist, lookup_insert_eq. eexists. split; [done|].
    by apply prefix_app_r.
  - destruct Hcases as (st'' & Hchat & Hhist & _).
    rewrite Hrun in Hchat. injection Hchat as -> <-. split; [by eexists|].
    rewrite Hhist, lookup_insert_eq. by eexists.
Qed.

Lemma resolved_id_supplied request st cid :
  conversation_id request = Some cid → cid ≠ EmptyString →
  resolved_id request st = cid.
Proof.
  intros Hid Hne. unfold resolved_id. rewrite Hid. by destruct cid.
Qed.

Lemma stored_insert cid l st' (m : gmap string (list Message)) :
  conversation_history st' = <[cid := l]> m → stored cid st' = l.
Proof. intros Hh. unfold stored. by rewrite Hh, lookup_insert_eq. Qed.

Lemma transcript_cons request requests resp responses :
  transcript (request :: requests) (resp :: responses)
  = exchange request resp ++ transcript requests responses.
Proof. reflexivity. Qed.

Lemma transcript_length requests responses :
  length responses = length requests →
  length (transcript requests responses) = 2 * length requests.
Proof.
  revert responses.
  induction requests as [|r rs IH]; intros [|resp resps] Hlen; try done.
  rewrite transcript_cons, length_app, IH; simpl in *; lia.
Qed.

(** Requests for one conversation, handled one after another, extend its
    history by their exchanges. *)
Lemma chat_each_transcript cid requests :
  cid ≠ EmptyString →
  Forall (λ r, conversation_id r = Some cid) requests →
  ∀ st responses st',
    chat_each requests st = (Ok responses, st') →
    length responses = length requests
    ∧ role_and_content <$> stored cid st'
      = (role_and_content <$> stored cid st) ++ transcript requests responses.
Proof.
  intros Hne. induction 1 as [|request requests Hid _ IH];
    intros st responses st' Hrun.
  - injection Hrun as <- <-. split; [done|]. by rewrite app_nil_r.
  - simpl in Hrun. unfold_m.
    destruct (chat request st) as [[resp|e] st1] eqn:Hchat; [|done].
    destruct (chat_each requests st1) as [[resps|e] st2] eqn:Heach; [|done].
    injection Hrun as <- <-.
    destruct (IH _ _ _ Heach) as [Hlen Hstored].
    apply chat_success in Hchat as (t & _ & _ & _ & _ & Hhist & _).
    rewrite (resolved_id_supplied _ _ cid) in Hhist by done.
    apply stored_insert in Hhist.
    split; [simpl; by rewrite Hlen|].
    rewrite Hstored, Hhist, transcript_cons. unfold chat_context.
    rewrite (resolved_id_supplied _ _ cid) by done.
    rewrite !fmap_app, <-!app_assoc. reflexivity.
Qed.

Lemma get_history_stored cid st :
  get_history cid st
  = (Ok {| hist_conversation_id := cid; messages := stored cid st |}, st).
Proof.
  unfold get_history, stored. unfold_m.
  by destruct (conversation_history st !! cid).
Qed.
End ChatResults.

(** ** What the handlers leave unchanged *)

Section Frame.
Context {Py : Platform} {Engine : AIEngine}.

(** [P] is any relation between states that is reflexive and transitive
    and that ignores the registry, the wire, the log and the clock. *)
Variable P : State → State → Prop.
Hypothesis P_refl : ∀ st, P st st.
Hypothesis P_trans : ∀ st1 st2 st3, P st1 st2 → P st2 st3 → P st1 st3.
Hypothesis P_connections : ∀ f st, P st (with_connections f st).
Hypothesis P_outbox : ∀ f st, P st (with_outbox f st).
Hypothesis P_log : ∀ f st, P st (with_log f st).
Hypothesis P_tick : ∀ st, P st (tick st).

Lemma preserves_mret {A} (a : A) : preserves P (mret a).
Proof. intros st. apply P_refl. Qed.

Lemma preserves_raise {A} e : preserves P (raise (A := A) e).
Proof. intros st. apply P_refl. Qed.

Lemma preserves_lift {A} (r : Result A) : preserves P (lift r).
Proof. intros st. apply P_refl. Qed.

Lemma preserves_gets {A} (f : State → A) : preserves P (gets f).
Proof. intros st. apply P_refl. Qed.

Lemma preserves_bind {A B} (m : M A) (f : A → M B) :
  preserves P m → (∀ a, preserves P (f a)) → preserves P (m ≫= f).
Proof.
  intros Hm Hf st. specialize (Hm st). unfold state_after in *. unfold_m.
  destruct (m st) as [[a|e] st1]; simpl in *; [|done].
  eapply P_trans; [exact Hm | apply Hf].
Qed.

Lemma preserves_try_catch {A} (body : M A) (handler : exn → M A) :
  preserves P body → (∀ e, preserves P (handler e)) →
  preserves P (try_catch body handler).
Proof.
  intros Hm Hh st. specialize (Hm st). unfold state_after in *. unfold_m.
  destruct (body st) as [[a|e] st1]; simpl in *; [done|].
  eapply P_trans; [exact Hm | apply Hh].
Qed.

Lemma preserves_for_each {A} (xs : list A) (body : A → M unit) :
  (∀ x, preserves P (body x)) → preserves P (for_each xs body).
Proof.
  intros Hbody. induction xs as [|x xs IH]; simpl.
  - apply preserves_mret.
  - apply preserves_bind; [apply Hbody | intros _; apply IH].
Qed.

Lemma preserves_utcnow : preserves P utcnow.
Proof. intros st. apply P_tick. Qed.

Lemma preserves_logger_info msg : preserves P (logger_info msg).
Proof. intros st. apply P_log. Qed.

Lemma preserves_logger_error msg : preserves P (logger_error msg).
Proof. intros st. apply P_log. Qed.

Lemma preserves_accept websocket : preserves P (accept websocket).
Proof.
  intros st. unfold state_after, accept.
  destruct (broken st !! websocket); apply P_refl.
Qed.

Lemma preserves_send_text websocket data :
  preserves P (send_text websocket data).
Proof.
  intros st. unfold state_after, send_text.
  destruct (broken st !! websocket); [apply P_refl | apply P_outbox].
Qed.

Lemma preserves_set_connections f : preserves P (modify (with_connections f)).
Proof. intros st. apply P_connections. Qed.

Hint Resolve preserves_mret preserves_raise preserves_lift preserves_gets
  preserves_utcnow preserves_logger_info preserves_logger_error
  preserves_accept preserves_send_text preserves_set_connections : core.

(** Decompose a handler along its binds, [try] blocks and case
    distinctions down to the primitives above. *)
Ltac frame :=
  repeat first
    [ progress intros
    | solve [auto]
    | apply preserves_bind
    | apply preserves_try_catch
    | apply preserves_for_each
    | match goal with
      | |- preserves _ (match ?x with _ => _ end) => destruct x
      end ].

Lemma preserves_connect websocket client_id :
  preserves P (connect websocket client_id).
Proof. unfold connect. frame. Qed.

Lemma preserves_disconnect client_id : preserves P (disconnect client_id).
Proof. unfold disconnect. frame. Qed.

Lemma preserves_send_message msg client_id :
  preserves P (send_message msg client_id).
Proof. unfold send_message. frame. Qed.

Lemma preserves_broadcast msg : preserves P (broadcast msg).
Proof. unfold broadcast. frame. Qed.

Hint Resolve preserves_connect preserves_disconnect preserves_send_message
  preserves_broadcast : core.

Lemma preserves_ws_welcome client_id : preserves P (ws_welcome client_id).
Proof. unfold ws_welcome. frame. Qed.

Lemma preserves_ws_except client_id e : preserves P (ws_except client_id e).
Proof. unfold ws_except. frame. Qed.

Lemma preserves_ws_turn client_id received :
  preserves P (ws_turn client_id received).
Proof. unfold ws_turn. frame. Qed.

Hint Resolve preserves_ws_welcome preserves_ws_except preserves_ws_turn : core.

Lemma preserves_ws_loop client_id frames :
  preserves P (ws_loop client_id frames).
Proof. induction frames; simpl; frame. Qed.

Hint Resolve preserves_ws_loop : core.

Lemma preserves_websocket_endpoint websocket client_id frames :
  preserves P (websocket_endpoint websocket client_id frames).
Proof. unfold websocket_endpoint. frame. Qed.

Lemma preserves_ws_open websocket client_id :
  preserves P (ws_open websocket client_id).
Proof. unfold ws_open. frame. Qed.

Lemma preserves_ws_step client_id received :
  preserves P (ws_step client_id received).
Proof. unfold ws_step. frame. Qed.

Lemma preserves_root frontend : preserves P (root frontend).
Proof. unfold root. frame. Qed.

Lemma preserves_health_check : preserves P health_check.
Proof. unfold health_check. frame. Qed.

Lemma preserves_get_models : preserves P get_models.
Proof. unfold get_models. frame. Qed.

Lemma preserves_get_history conversation_id :
  preserves P (get_history conversation_id).
Proof. unfold get_history. frame. Qed.

Lemma preserves_upload_file file : preserves P (upload_file file).
Proof. unfold upload_file. frame. Qed.

Lemma preserves_get_stats : preserves P get_stats.
Proof. unfold get_stats. frame. Qed.

(** The second half of [chat] adds to [P] only what [history_append]
    does. *)
Lemma preserves_chat_resume request conversation_id outcome :
  (∀ cid m, preserves P (history_append cid m)) →
  preserves P (chat_resume request conversation_id outcome).
Proof.
  intros Happend. unfold chat_resume, chat_epilogue, chat_except. frame.
Qed.
End Frame.

(** ** Connection manager and WebSocket sessions *)

Lemma dict_get_del {V} (k : string) (d : list (string * V)) :
  dict_get k (dict_del k d) = None.
Proof.
  induction d as [|[k' v] d IH]; simpl; [done|].
  destruct (decide (k = k')) as [->|Hne]; [done|]. simpl.
  by rewrite decide_False.
Qed.

Section Broadcast.
Lemma send_text_healthy websocket msg st :
  healthy st websocket →
  send_text websocket msg st
  = (Ok tt, with_outbox (λ o, o ++ [(websocket, msg)]) st).
Proof. unfold healthy, send_text. by intros ->. Qed.

Lemma send_text_broken websocket msg st e :
  broken st !! websocket = Some e →
  send_text websocket msg st = (Raise e, st).
Proof. unfold send_text. by intros ->. Qed.

(** Sending to a list of channels: the channels before the first broken
    one receive the message, then the loop is left by the exception. *)
Lemma for_each_send_stops msg pre websocket e post st :
  Forall (healthy st) pre →
  broken st !! websocket = Some e →
  ∃ st',
    for_each (pre ++ websocket :: post) (λ c, send_text c msg) st
    = (Raise e, st')
    ∧ outbox st' = outbox st ++ deliveries msg pre.
Proof.
  revert st. induction pre as [|c pre IH]; intros st Hpre He; simpl.
  - unfold_m. rewrite (send_text_broken _ _ _ e) by done.
    exists st. by rewrite app_nil_r.
  - apply Forall_cons in Hpre as [Hc Hpre]. unfold_m.
    rewrite send_text_healthy by done.
    destruct (IH (with_outbox (λ o, o ++ [(c, msg)]) st)) as (st' & -> & Hout);
      [done..|].
    exists st'. split; [done|]. rewrite Hout. simpl. by rewrite <-app_assoc.
Qed.

Lemma for_each_send_all msg channels st :
  Forall (healthy st) channels →
  ∃ st',
    for_each channels (λ c, send_text c msg) st = (Ok tt, st')
    ∧ outbox st' = outbox st ++ deliveries msg channels.
Proof.
  revert st. induction channels as [|c channels IH]; intros st Hall; simpl.
  - exists st. by rewrite app_nil_r.
  - apply Forall_cons in Hall as [Hc Hall]. unfold_m.
    rewrite send_text_healthy by done.
    destruct (IH (with_outbox (λ o, o ++ [(c, msg)]) st)) as (st' & -> & Hout);
      [done|].
    exists st'. split; [done|]. rewrite Hout. simpl. by rewrite <-app_assoc.
Qed.

Lemma sent_during_suffix {A} (m : M A) st sent :
  outbox (state_after m st) = outbox st ++ sent → sent_during m st = sent.
Proof. unfold sent_during. intros ->. by rewrite drop_app_length. Qed.
End Broadcast.

Section Sessions.
Context {Py : Platform} {Engine : AIEngine}.

(** The handler's [except] clauses return normally. *)
Lemma disconnect_returns client_id st :
  ∃ st', disconnect client_id st = (Ok tt, st')
         ∧ dict_get client_id (active_connections st') = None
         ∧ log st `prefix_of` log st'.
Proof.
  unfold disconnect, logger_info. unfold_m. simpl.
  destruct (decide (is_Some (dict_get client_id (active_connections st))))
    as [Hin|Hout]; simpl.
  - eexists. split; [reflexivity|]. simpl. split; [apply dict_get_del|].
    by apply prefix_app_r.
  - exists st. split; [done|]. split; [|done].
    by apply eq_None_not_Some.
Qed.

Lemma ws_except_returns client_id e st :
  ∃ st', ws_except client_id e st = (Ok tt, st')
         ∧ dict_get client_id (active_connections st') = None
         ∧ (e ≠ WebSocketDisconnect →
            {| level := "ERROR"; text := "WebSocket error: " +:+ exn_str e |}
            ∈ log st').
Proof.
  unfold ws_except.
  destruct e;
    try (destruct (disconnect_returns client_id st) as (st' & -> & Hget & _);
         by exists st').
  all: unfold logger_error; unfold_m; simpl.
  all: match goal with |- context [disconnect _ ?s] =>
         destruct (disconnect_returns client_id s) as (st' & -> & Hget & Hlog)
       end.
  all: exists st'; split; [done|]; split; [done|]; intros _.
  all: eapply elem_of_prefix; [|exact Hlog]; simpl.
  all: apply elem_of_app; right; apply list_elem_of_singleton; done.
Qed.

Lemma ws_step_returns client_id received st :
  ∃ session st', ws_step client_id received st = (Ok session, st').
Proof.
  unfold ws_step. unfold_m.
  destruct (ws_turn client_id received st) as [[[]|e] st1]; [by eexists _, _|].
  destruct (ws_except_returns client_id e st1) as (st' & -> & _).
  by eexists _, _.
Qed.

Lemma ws_steps_closed client_id frames st :
  ws_steps Closed client_id frames st = (Ok Closed, st).
Proof. by destruct frames. Qed.

Lemma ws_steps_returns session client_id frames st :
  ∃ session' st', ws_steps session client_id frames st = (Ok session', st').
Proof.
  revert session st. induction frames as [|received frames IH];
    intros [] st; simpl; try by eexists _, _.
  unfold_m.
  destruct (ws_step_returns client_id received st) as (s & st1 & ->).
  apply IH.
Qed.

Lemma ws_steps_app session client_id frames frames' st :
  ws_steps session client_id (frames ++ frames') st
  = match ws_steps session client_id frames st with
    | (Ok session', st') => ws_steps session' client_id frames' st'
    | (Raise e, st') => (Raise e, st')
    end.
Proof.
  revert session st. induction frames as [|received frames IH];
    intros [] st; simpl; try done.
  - unfold_m. destruct (ws_step client_id received st) as [[s|e] st1]; [|done].
    apply IH.
  - by destruct frames'.
Qed.

(** The loop under the [try] of [websocket_endpoint] is its turns, each
    under that [try], for as long as the session is open. *)
Lemma ws_loop_steps client_id frames st :
  try_catch (ws_loop client_id frames;; mret Open)
            (λ e, ws_except client_id e;; mret Closed) st
  = ws_steps Open client_id frames st.
Proof.
  revert st. induction frames as [|received frames IH]; intros st; [done|].
  simpl. unfold ws_step. unfold_m.
  destruct (ws_turn client_id received st) as [[[]|e] st1]; simpl.
  - rewrite <-IH. unfold_m. reflexivity.
  - destruct (ws_except_returns client_id e st1) as (st' & -> & _).
    by rewrite ws_steps_closed.
Qed.

Lemma websocket_endpoint_steps websocket client_id frames st :
  websocket_endpoint websocket client_id frames st
  = match ws_open websocket client_id st with
    | (Ok session, st') => ws_steps session client_id frames st'
    | (Raise e, st') => (Raise e, st')
    end.
Proof.
  unfold websocket_endpoint, ws_open.
  pose proof (ws_loop_steps client_id frames) as Hloop. unfold_m.
  destruct (connect websocket client_id st) as [[[]|e] st0]; [|done].
  destruct (ws_welcome client_id st0) as [[[]|e] st1]; simpl.
  - apply Hloop.
  - destruct (ws_except_returns client_id e st1) as (st' & Hex & _).
    unfold_m. rewrite Hex. by rewrite ws_steps_closed.
Qed.

(** A frame that does not decode ends the session. *)
Lemma ws_step_malformed client_id data st :
  json_loads data = None →
  ∃ st',
    ws_step client_id (Ok data) st = (Ok Closed, st')
    ∧ dict_get client_id (active_connections st') = None
    ∧ {| level := "ERROR";
         text := "WebSocket error: " +:+ json_error data |} ∈ log st'.
Proof.
  intros Hbad. unfold ws_step, ws_turn. unfold_m. simpl. rewrite Hbad.
  destruct (ws_except_returns client_id (JSONDecodeError (json_error data)) st)
    as (st' & -> & Hget & Hlog).
  exists st'. split; [done|]. split; [done|]. by apply Hlog.
Qed.
End Sessions.

(** ** Growth of the conversation store *)

Lemma append_only_refl st : append_only st st.
Proof. intros cid l Hl. by exists l. Qed.

Lemma append_only_trans st1 st2 st3 :
  append_only st1 st2 → append_only st2 st3 → append_only st1 st3.
Proof.
  intros H12 H23 cid l Hl.
  destruct (H12 _ _ Hl) as (l2 & Hl2 & Hpre2).
  destruct (H23 _ _ Hl2) as (l3 & Hl3 & Hpre3).
  exists l3. split; [done|]. by etrans.
Qed.

Lemma append_only_same st st' :
  conversation_history st' = conversation_history st → append_only st st'.
Proof. intros Hsame cid l Hl. exists l. by rewrite Hsame. Qed.

(** Writing back the stored messages of one conversation with more
    messages after them. *)
Lemma append_only_extend st st' cid suffix :
  conversation_history st'
  = <[cid := stored cid st ++ suffix]> (conversation_history st) →
  append_only st st'.
Proof.
  intros Hh k l Hl. rewrite Hh. destruct (decide (cid = k)) as [->|Hne].
  - rewrite lookup_insert_eq. unfold stored. rewrite Hl. simpl.
    eexists. split; [done|]. by apply prefix_app_r.
  - rewrite lookup_insert_ne by done. by exists l.
Qed.

Section Growth.
Context {Py : Platform} {Engine : AIEngine}.

Lemma history_append_grows cid m :
  preserves append_only (history_append cid m).
Proof.
  intros st. unfold state_after, history_append. unfold_m.
  destruct (conversation_history st !! cid) as [l|] eqn:Hl; simpl.
  - apply (append_only_extend _ _ cid [m]). unfold stored. by rewrite Hl.
  - apply append_only_refl.
Qed.

Lemma chat_grows request : preserves append_only (chat request).
Proof.
  intros st. unfold state_after.
  pose proof (chat_cases request st) as Hcases. cbv zeta in Hcases.
  destruct (generator_outcome request st) as [ai|e].
  - destruct Hcases as (t & t' & st' & -> & Hhist & _). simpl.
    eapply append_only_extend. rewrite Hhist. unfold chat_context.
    by rewrite <-app_assoc.
  - destruct Hcases as (st' & -> & Hhist & _). simpl.
    eapply append_only_extend. by rewrite Hhist.
Qed.

Lemma chat_begin_grows request : preserves append_only (chat_begin request).
Proof.
  intros st. unfold state_after.
  destruct (chat_begin_spec request st) as (st1 & -> & Hhist & _). simpl.
  eapply append_only_extend. by rewrite Hhist.
Qed.

(** Every operation of the system keeps what the store holds. *)
Lemma exec_grows op st : append_only st (exec op st).
Proof.
  assert (∀ f st, append_only st (with_connections f st)) as Hc
    by (intros; by apply append_only_same).
  assert (∀ f st, append_only st (with_outbox f st)) as Ho
    by (intros; by apply append_only_same).
  assert (∀ f st, append_only st (with_log f st)) as Hl
    by (intros; by apply append_only_same).
  assert (∀ st, append_only st (tick st)) as Ht
    by (intros; by apply append_only_same).
  pose proof append_only_refl as Hr. pose proof append_only_trans as Htr.
  destruct op; simpl.
  - by apply preserves_root.
  - by apply preserves_health_check.
  - by apply preserves_get_models.
  - apply chat_grows.
  - apply chat_begin_grows.
  - apply preserves_chat_resume; try done. apply history_append_grows.
  - by apply preserves_get_history.
  - by apply preserves_upload_file.
  - by apply preserves_get_stats.
  - by apply preserves_websocket_endpoint.
  - by apply preserves_ws_open.
  - by apply preserves_ws_step.
  - by apply preserves_broadcast.
  - by apply append_only_same.
Qed.

(** Of all operations, only those of [chat] write the store. *)
Lemma only_chat_writes_history op st :
  is_chat op = false →
  conversation_history (exec op st) = conversation_history st.
Proof.
  assert (∀ st1 st2 st3, same_history st1 st2 → same_history st2 st3 →
                         same_history st1 st3) as Htr
    by (unfold same_history; intros ??? H12 H23; by rewrite H23).
  intros Hop. change (same_history st (exec op st)).
  destruct op; try discriminate Hop; simpl.
  - by apply preserves_root.
  - by apply preserves_health_check.
  - by apply preserves_get_models.
  - by apply preserves_get_history.
  - by apply preserves_upload_file.
  - by apply preserves_get_stats.
  - by apply preserves_websocket_endpoint.
  - by apply preserves_ws_open.
  - by apply preserves_ws_step.
  - by apply preserves_broadcast.
  - done.
Qed.
End Growth.

(** ** The handlers on the reference platform *)

Section Examples.
Import Samples.
#[local] Existing Instance Reference.ascii_platform.

Lemma generate_response_greeting :
  generate_response (JStr "Hello, Quantum Travel AI!") (JStr "quantum-ai") None
  = Ok greeting_response.
Proof. reflexivity. Qed.

(** The keyword groups are tried in order: "python" is found before
    "what". *)
Lemma generate_response_code :
  generate_response (JStr "What is Python?") (JStr "quantum-ai") None
  = Ok code_response.
Proof. reflexivity. Qed.

Lemma generate_response_default :
  generate_response (JStr "Tell me more") (JStr "quantum-ai") None
  = Ok (default_response "Tell me more").
Proof. reflexivity. Qed.

Lemma generate_response_not_a_string :
  generate_response (JInt 5) (JStr "quantum-ai") None
  = Raise (AttributeError "'int' object has no attribute 'lower'").
Proof. reflexivity. Qed.

Lemma str_split_example :
  str_split "  Tell me   more " = ["Tell"; "me"; "more"].
Proof. reflexivity. Qed.

(** Whitespace is a matter of characters, not bytes: U+00A0 separates
    tokens, and the bytes of a character stay together. *)
Lemma str_split_no_break_space :
  str_split ("a" +:+ MoreSamples.nbsp +:+ "b") = ["a"; "b"]
  ∧ ord MoreSamples.nbsp = 160%N
  ∧ characters ("a" +:+ MoreSamples.nbsp +:+ "b")
    = ["a"; MoreSamples.nbsp; "b"].
Proof. by vm_compute. Qed.

(** A session: the acknowledgement, then the answer to one frame; the
    session stays open and registered. *)
Lemma websocket_session_example :
  let '(r, st') :=
    websocket_endpoint (Engine := ai_engine) 7 "client1" [Ok hi_frame]
                       initial_state in
  r = Ok Open
  ∧ active_connections st' = [("client1", 7)]
  ∧ (λ sent, (sent.1, json_loads sent.2 ≫= λ v,
                       match json_get v "type" JNull with
                       | Ok t => Some t
                       | Raise _ => None
                       end)) <$> outbox st'
    = [(7, Some (JStr "connection")); (7, Some (JStr "message"))].
Proof. vm_compute. by repeat split. Qed.

(** A client that disconnects is removed without an error record. *)
Lemma websocket_disconnect_example :
  let '(r, st') :=
    websocket_endpoint (Engine := ai_engine) 7 "client1"
                       [Raise WebSocketDisconnect] initial_state in
  r = Ok Closed
  ∧ active_connections st' = []
  ∧ level <$> log st' = ["INFO"; "INFO"].
Proof. vm_compute. by repeat split. Qed.
End Examples.

(** ** Conversation history over HTTP *)

Section HistoryClaims.
Context {Py : Platform} {Engine : AIEngine}.

(** C1 (as amended): when N chat requests that all supply the same
    non-empty conversation id, for a conversation with no stored messages,
    are handled one after another and all succeed, [get_history] for that
    id returns exactly 2N messages, in request order, alternating user /
    assistant; each user message carries the request's message and each
    assistant message the generated response. *)
Theorem history_after_sequential_chats cid requests st :
  cid ≠ EmptyString →
  Forall (λ r, conversation_id r = Some cid) requests →
  stored cid st = [] →
  history_lists_exchanges cid requests st.
Proof.
  intros Hne Hids Hfresh responses st' Hrun.
  destruct (chat_each_transcript cid requests Hne Hids _ _ _ Hrun)
    as [Hlen Htr].
  rewrite Hfresh in Htr. simpl in Htr.
  eexists. split; [apply get_history_stored|]. simpl. split; [|done].
  rewrite <-(length_fmap role_and_content), Htr.
  by apply transcript_length.
Qed.

(** C4: [chat] performs no rollback.  If the request fails at any step it
    is answered by HTTP 500 with a detail string, and the user message is
    still in the history of its conversation.  If it is the generator
    that raises, the detail is the text of that exception and the stored
    history ends with the user message: no assistant message is added. *)
Theorem chat_failure_keeps_user_message request st :
  (∀ e st',
     chat request st = (Raise e, st') →
     (∃ detail, e = HTTPException 500 detail)
     ∧ http_status (chat request st).1 = 500
     ∧ ∃ l, conversation_history st' !! resolved_id request st = Some l
            ∧ chat_context request st `prefix_of` l)
  ∧ (∀ e0,
       generator_outcome request st = Raise e0 →
       ∃ st',
         chat request st = (Raise (HTTPException 500 (exn_str e0)), st')
         ∧ conversation_history st' !! resolved_id request st
           = Some (stored (resolved_id request st) st
                   ++ [user_message request (user_timestamp request st)])).
Proof.
  split.
  - intros e st' Hrun.
    destruct (chat_failure _ _ _ _ Hrun) as [[detail ->] Hkept].
    split; [by eexists|]. split; [by rewrite Hrun | done].
  - intros e0 Hgen. pose proof (chat_cases request st) as Hcases.
    simpl in Hcases. rewrite Hgen in Hcases.
    destruct Hcases as (st' & Hrun & Hhist & _).
    exists st'. split; [done|]. by rewrite Hhist, lookup_insert_eq.
Qed.

(** C8: a successful [chat] request without a conversation id returns the
    id ["conv_"] followed by the rendering of the timestamp read from the
    clock; it is not empty and starts with ["conv_"]; and two such
    requests that read distinct timestamp values return distinct ids. *)
Theorem generated_conversation_id request1 st1 resp1 st1' request2 st2 resp2 st2' :
  conversation_id request1 = None →
  chat request1 st1 = (Ok resp1, st1') →
  conversation_id request2 = None →
  chat request2 st2 = (Ok resp2, st2') →
  (resp_conversation_id resp1
   = "conv_" +:+ float_str (timestamp (utcnow_at (clock st1)))
   ∧ resp_conversation_id resp1 ≠ EmptyString
   ∧ String.prefix "conv_" (resp_conversation_id resp1) = true)
  ∧ (timestamp (utcnow_at (clock st1)) ≠ timestamp (utcnow_at (clock st2)) →
     resp_conversation_id resp1 ≠ resp_conversation_id resp2).
Proof.
  intros Hid1 Hrun1 Hid2 Hrun2.
  apply chat_success in Hrun1 as (_ & _ & _ & Hcid1 & _).
  apply chat_success in Hrun2 as (_ & _ & _ & Hcid2 & _).
  unfold resolved_id, fresh_id in Hcid1, Hcid2.
  rewrite Hid1 in Hcid1. rewrite Hid2 in Hcid2.
  rewrite Hcid1, Hcid2. split.
  { split; [reflexivity|]. split; [discriminate | apply prefix_append]. }
  intros Hts Heq. apply Hts. simplify_eq/=. by apply float_str_inj.
Qed.

(** C9: in the response of a successful [chat] request, [tokens_used] is
    the number of whitespace-separated tokens of the request message plus
    that of the generated response text. *)
Theorem tokens_used_counts_tokens request st resp st' :
  chat request st = (Ok resp, st') →
  generator_outcome request st = Ok (response resp)
  ∧ tokens_used resp
    = Some (count_tokens (message request) + count_tokens (response resp)).
Proof.
  intros Hrun. apply chat_success in Hrun as (_ & Hgen & _ & _ & Htok & _).
  split; [done|]. by rewrite Htok, !str_split_count.
Qed.
End HistoryClaims.

(** C5: [get_history] never fails, for any id and state: it answers 200
    with the id it was given and the stored messages of that conversation,
    or no messages when the id is unknown, and leaves the state as it is. *)
Theorem get_history_never_fails (conversation_id : string) (st : State) :
  get_history conversation_id st
  = (Ok {| hist_conversation_id := conversation_id;
           messages := match conversation_history st !! conversation_id with
                       | Some l => l
                       | None => []
                       end |}, st)
  ∧ http_status (get_history conversation_id st).1 = 200.
Proof.
  unfold get_history. unfold_m.
  by destruct (conversation_history st !! conversation_id).
Qed.

(** C10: [chat] does not check the model against the catalogue.  With the
    engine of the source, a request carrying any model string succeeds, the
    response repeats that string, and the generated text is the same for
    every model value and context. *)
Theorem chat_accepts_any_model {Py : Platform} (request : ChatRequest)
    (st : State) (m : string) :
  model request = Some m →
  ∃ resp st',
    chat (Engine := ai_engine) request st = (Ok resp, st')
    ∧ resp_model resp = m
    ∧ ∀ model' context,
        generate_response (JStr (message request)) model' context
        = Ok (response resp).
Proof.
  intros Hm. pose proof (chat_cases (Engine := ai_engine) request st) as Hcases.
  cbv zeta in Hcases.
  destruct (generator_outcome (Engine := ai_engine) request st) as [ai|e] eqn:Hgen.
  - destruct Hcases as (t & t' & st' & Hrun & _). rewrite Hm in Hrun.
    eexists _, st'. split; [exact Hrun|]. split; [done|]. simpl.
    intros model' context. rewrite <-Hgen. reflexivity.
  - exfalso. unfold generator_outcome in Hgen. simpl in Hgen.
    unfold generate_response in Hgen. by repeat case_match.
Qed.

Section HistoryWitnesses.
#[local] Existing Instance Reference.ascii_platform.

(** Two requests for the conversation ["trip"], from the initial state:
  both succeed, and the history lists their four messages. *)
Lemma history_after_sequential_chats_witness :
(∃ responses st',
   chat_each (Engine := ai_engine) [Samples.hello; Samples.what_is_python]
             initial_state = (Ok responses, st'))
∧ history_lists_exchanges (Engine := ai_engine) "trip"
    [Samples.hello; Samples.what_is_python] initial_state.
Proof.
split.
- eexists _, _. vm_compute. reflexivity.
- apply history_after_sequential_chats.
  + discriminate.
  + repeat constructor.
  + reflexivity.
Defined.

(** C1, as stated, fails for the empty conversation id: [chat] treats it as
  absent and writes to a generated conversation, so after one successful
  request that supplies the empty id, the history of the empty id has no
  messages
  instead of two. *)
Lemma empty_conversation_id_not_recorded :
Forall (λ r, conversation_id r = Some EmptyString)
       [Samples.hello_empty_id]
∧ stored EmptyString initial_state = []
∧ ¬ history_lists_exchanges (Engine := ai_engine) EmptyString
      [Samples.hello_empty_id]
      initial_state.
Proof.
split; [by repeat constructor|]. split; [reflexivity|].
intros Hclaim.
edestruct Hclaim as (body & Hget & Hlen & _).
{ vm_compute. reflexivity. }
vm_compute in Hget. injection Hget as <-. discriminate Hlen.
Qed.

(** The request fails in the generator: HTTP 500, and the user message is
  all that the conversation holds. *)
Lemma chat_failure_keeps_user_message_witness :
∃ st',
  chat (Engine := Samples.failing_engine) Samples.hello initial_state
  = (Raise (HTTPException 500 "model backend unavailable"), st')
  ∧ http_status
      (chat (Engine := Samples.failing_engine) Samples.hello
            initial_state).1 = 500
  ∧ conversation_history st' !! "trip"
    = Some [ {| role := "user"; content := "Hello";
                msg_timestamp := "1700000000000000" |} ].
Proof.
destruct (chat_failure_keeps_user_message
            (Engine := Samples.failing_engine)
            Samples.hello initial_state) as [Hany Hgen].
destruct (Hgen (RuntimeError "model backend unavailable") eq_refl)
  as (st' & Hrun & Hhist).
exists st'. split; [exact Hrun|].
split; [exact (proj1 (proj2 (Hany _ _ Hrun))) | exact Hhist].
Defined.

(** Two requests without an id, the second after the first. *)
Lemma generated_conversation_id_witness :
∃ resp1 st1 resp2 st2,
  chat (Engine := ai_engine) Samples.hello_anonymous initial_state = (Ok resp1, st1)
  ∧ chat (Engine := ai_engine) Samples.hello_anonymous st1 = (Ok resp2, st2)
  ∧ resp_conversation_id resp1 = "conv_1700000000000000"
  ∧ resp_conversation_id resp1 ≠ resp_conversation_id resp2.
Proof.
destruct (chat (Engine := ai_engine) Samples.hello_anonymous initial_state)
  as [[resp1|e1] st1] eqn:Hrun1; [|by vm_compute in Hrun1].
destruct (chat (Engine := ai_engine) Samples.hello_anonymous st1)
  as [[resp2|e2] st2] eqn:Hrun2.
- exists resp1, st1, resp2, st2.
  destruct (generated_conversation_id
              Samples.hello_anonymous initial_state resp1 st1
              Samples.hello_anonymous st1 resp2 st2
              eq_refl Hrun1 eq_refl Hrun2) as [(Hform & _) Hdistinct].
  split; [done|]. split; [done|]. split; [exact Hform|].
  apply Hdistinct. vm_compute in Hrun1. injection Hrun1 as _ <-.
  vm_compute. discriminate.
- exfalso. vm_compute in Hrun1. injection Hrun1 as _ <-.
  by vm_compute in Hrun2.
Defined.

(** The message is a, U+00A0, b: two tokens, and 73 in the response that
  quotes it. *)
Lemma tokens_used_counts_tokens_witness :
∃ resp st',
  chat (Engine := ai_engine) MoreSamples.no_break_request initial_state
  = (Ok resp, st')
  ∧ tokens_used resp = Some 75.
Proof.
destruct (chat (Engine := ai_engine) MoreSamples.no_break_request
            initial_state)
  as [[resp|e] st'] eqn:Hrun; [|by vm_compute in Hrun].
exists resp, st'. split; [done|].
destruct (tokens_used_counts_tokens _ _ _ _ Hrun) as [_ ->].
vm_compute in Hrun. injection Hrun as <- _. reflexivity.
Defined.

(** A model that the catalogue does not list. *)
Lemma chat_accepts_any_model_witness :
dict_get "gpt-9" supported_models = None
∧ ∃ resp st',
    chat (Engine := ai_engine) Samples.hello_unlisted_model initial_state = (Ok resp, st')
    ∧ resp_model resp = "gpt-9"
    ∧ response resp = greeting_response.
Proof.
split; [reflexivity|].
destruct (chat_accepts_any_model Samples.hello_unlisted_model
            initial_state "gpt-9" eq_refl) as (resp & st' & Hrun & Hm & Hgen).
exists resp, st'. split; [exact Hrun|]. split; [exact Hm|].
assert (Ok (response resp) = Ok greeting_response) as [= ->]; [|done].
rewrite <-(Hgen JNull None). vm_compute. reflexivity.
Defined.
End HistoryWitnesses.

(** ** Connections and WebSocket sessions *)

Section ConnectionClaims.
Context {Py : Platform} {Engine : AIEngine}.

(** C2 (as amended): when an inbound frame fails to parse as JSON in a
    session that is open, the error is logged, the client is removed from
    the registry and the handler returns: the session is closed, and the
    frames that follow are not read. *)
Theorem malformed_frame_closes_session websocket client_id before data after st :
  json_loads data = None →
  (websocket_endpoint websocket client_id before st).1 = Ok Open →
  ∃ st',
    websocket_endpoint websocket client_id (before ++ Ok data :: after) st
    = (Ok Closed, st')
    ∧ dict_get client_id (active_connections st') = None
    ∧ {| level := "ERROR"; text := "WebSocket error: " +:+ json_error data |}
      ∈ log st'
    ∧ websocket_endpoint websocket client_id (before ++ [Ok data]) st
      = (Ok Closed, st').
Proof.
  intros Hbad Hopen. rewrite !websocket_endpoint_steps in *.
  destruct (ws_open websocket client_id st) as [[s0|e] st0]; [|done].
  rewrite !ws_steps_app.
  destruct (ws_steps s0 client_id before st0) as [[s1|e] st1]; [|done].
  simpl in Hopen. injection Hopen as ->. simpl. unfold_m.
  destruct (ws_step_malformed client_id data st1 Hbad)
    as (st' & -> & Hget & Hlog).
  exists st'. by rewrite ws_steps_closed.
Qed.

(** C7: the WebSocket endpoint never writes the conversation store,
    whatever frames it processes, and neither does any of its parts. *)
Theorem websocket_leaves_history_unchanged websocket client_id frames received st :
  conversation_history
    (state_after (websocket_endpoint websocket client_id frames) st)
  = conversation_history st
  ∧ conversation_history (state_after (ws_open websocket client_id) st)
    = conversation_history st
  ∧ conversation_history (state_after (ws_step client_id received) st)
    = conversation_history st.
Proof.
  assert (∀ A (m : M A), preserves same_history m →
          conversation_history (state_after m st) = conversation_history st)
    as Hsame by (intros A m Hm; apply Hm).
  repeat split; apply Hsame.
  - apply preserves_websocket_endpoint; unfold same_history; try done.
    intros st1 st2 st3 H12 H23. by rewrite H23.
  - apply preserves_ws_open; unfold same_history; try done.
    intros st1 st2 st3 H12 H23. by rewrite H23.
  - apply preserves_ws_step; unfold same_history; try done.
    intros st1 st2 st3 H12 H23. by rewrite H23.
Qed.
End ConnectionClaims.

(** C3 (as amended): [broadcast] sends the payload to the registered
    channels in registration order.  An error raised by one channel is
    raised by [broadcast] and ends it: the channels registered before the
    first failing one have received the payload, the others have not.  When
    no channel fails, every registered channel receives it. *)
Theorem broadcast_stops_at_first_failure (msg : string) (st : State) :
  (∀ before websocket e after,
     dict_values (active_connections st) = before ++ websocket :: after →
     Forall (healthy st) before →
     broken st !! websocket = Some e →
     (broadcast msg st).1 = Raise e
     ∧ sent_during (broadcast msg) st = deliveries msg before)
  ∧ (Forall (healthy st) (dict_values (active_connections st)) →
     (broadcast msg st).1 = Ok tt
     ∧ sent_during (broadcast msg) st
       = deliveries msg (dict_values (active_connections st))).
Proof.
  split.
  - intros before websocket e after Hchannels Hbefore He.
    destruct (for_each_send_stops msg before websocket e after st Hbefore He)
      as (st' & Hrun & Hout).
    assert (broadcast msg st = (Raise e, st')) as Hb.
    { unfold broadcast. unfold_m. by rewrite Hchannels. }
    split; [by rewrite Hb|].
    apply sent_during_suffix. unfold state_after. by rewrite Hb.
  - intros Hall.
    destruct (for_each_send_all msg _ st Hall) as (st' & Hrun & Hout).
    assert (broadcast msg st = (Ok tt, st')) as Hb.
    { unfold broadcast. unfold_m. done. }
    split; [by rewrite Hb|].
    apply sent_during_suffix. unfold state_after. by rewrite Hb.
Qed.

(** C6: the per-conversation history is append-only.  After any sequence of
    operations of the system (chat requests, whole or interleaved at their
    suspension point, history reads, WebSocket sessions and their turns,
    broadcasts, stats, health, models, uploads, transport failures) every
    conversation that existed before still exists, and its earlier message
    sequence is a prefix of its present one. *)
Theorem history_is_append_only {Py : Platform} {Engine : AIEngine}
    (ops : list Operation) (st : State) :
  append_only st (exec_all ops st).
Proof.
  revert st. induction ops as [|op ops IH]; intros st; simpl.
  - apply append_only_refl.
  - eapply append_only_trans; [apply exec_grows | apply IH].
Qed.

Section ConnectionWitnesses.
Import Samples.
#[local] Existing Instance Reference.ascii_platform.

(** C2, as stated, fails: one malformed frame closes a session that was
    open and removes the client from the registry. *)
Lemma malformed_frame_ends_session :
  json_loads malformed_frame = None
  ∧ session_survives (Engine := ai_engine) 0 "client1" [] initial_state
  ∧ ¬ session_survives (Engine := ai_engine) 0 "client1"
        [Ok malformed_frame] initial_state.
Proof.
  split; [reflexivity|]. split.
  - vm_compute. by split.
  - intros Hclaim. vm_compute in Hclaim. by destruct Hclaim.
Qed.

(** A session answers one frame, then receives a malformed one: it is
    closed without reading the third. *)
Lemma malformed_frame_closes_session_witness :
  ∃ st',
    websocket_endpoint (Engine := ai_engine) 0 "client1"
      [Ok hi_frame; Ok malformed_frame; Ok hi_frame] initial_state
    = (Ok Closed, st')
    ∧ dict_get "client1" (active_connections st') = None
    ∧ length (outbox st') = 2.
Proof.
  assert (json_loads malformed_frame = None) as Hbad by reflexivity.
  assert ((websocket_endpoint (Engine := ai_engine) 0 "client1"
             [Ok hi_frame] initial_state).1 = Ok Open) as Hopen
    by (vm_compute; reflexivity).
  destruct (malformed_frame_closes_session (Engine := ai_engine)
              0 "client1" [Ok hi_frame] malformed_frame [Ok hi_frame]
              initial_state Hbad Hopen)
    as (st' & Hrun & Hget & _).
  exists st'. split; [exact Hrun|]. split; [exact Hget|].
  vm_compute in Hrun. by injection Hrun as <-.
Defined.

(** C3, as stated, fails: the channel of the first client is broken, and
    the second client, whose channel works, receives nothing. *)
Lemma broadcast_aborts_at_broken_channel :
  1 ∈ dict_values (active_connections (two_clients [0]))
  ∧ broken (two_clients [0]) !! 1 = None
  ∧ ¬ broadcast_reaches_healthy "ping" (two_clients [0]).
Proof.
  split; [by repeat constructor|]. split; [reflexivity|].
  intros Hclaim.
  assert ((1, "ping") ∈ sent_during (broadcast "ping") (two_clients [0]))
    as Hin.
  { apply Hclaim; [by repeat constructor | reflexivity]. }
  vm_compute in Hin. inversion Hin.
Qed.

(** The channel of the second client is broken: the first client is
    served, then the broadcast fails.  With both channels working, both
    clients are served. *)
Lemma broadcast_stops_at_first_failure_witness :
  ((broadcast "ping" (two_clients [1])).1 = Raise closed_transport
   ∧ sent_during (broadcast "ping") (two_clients [1]) = [(0, "ping")])
  ∧ ((broadcast "ping" (two_clients [])).1 = Ok tt
     ∧ sent_during (broadcast "ping") (two_clients [])
       = [(0, "ping"); (1, "ping")]).
Proof.
  split.
  - apply (proj1 (broadcast_stops_at_first_failure "ping" (two_clients [1]))
             [0] 1 closed_transport []).
    + reflexivity.
    + by repeat constructor.
    + reflexivity.
  - apply (proj2 (broadcast_stops_at_first_failure "ping" (two_clients []))).
    by repeat constructor.
Defined.

(** Overlapping requests for one conversation: the two user messages are
    stored before the two answers, so the roles do not alternate. *)
Lemma overlapped_chats_do_not_alternate :
  role <$> stored "trip"
             (state_after
                (chat_overlapped (Engine := ai_engine)
                   Samples.hello Samples.what_is_python)
                initial_state)
  = ["user"; "user"; "assistant"; "assistant"].
Proof. vm_compute. reflexivity. Qed.

(** A request whose model is [null] fails when the response is built,
    after both messages have been stored. *)
Lemma chat_null_model_fails_after_storing :
  let '(r, st') :=
    chat (Engine := ai_engine) (request "Hello" (Some "trip") None)
         initial_state in
  r = Raise (HTTPException 500 model_validation_error)
  ∧ role <$> stored "trip" st' = ["user"; "assistant"].
Proof. vm_compute. by split. Qed.
End ConnectionWitnesses.

(** * Further properties

    ** Chat requests *)

Section ChatMore.
Context {Py : Platform} {Engine : AIEngine}.

Lemma resolved_id_nonempty request st :
  resolved_id request st ≠ EmptyString.
Proof.
  unfold resolved_id, fresh_id.
  destruct (conversation_id request) as [[|c s]|]; simpl; discriminate.
Qed.

Lemma resolved_id_follow_up request st cid :
  conversation_id request = Some cid → cid ≠ EmptyString →
  resolved_id request st = cid ∧ generates_id request = false.
Proof.
  intros Hid Hne. unfold resolved_id, generates_id. rewrite Hid.
  by destruct cid.
Qed.

(** What a successful [chat] has stored. *)
Lemma chat_success_stored request st resp st' :
  chat request st = (Ok resp, st') →
  ∃ t,
    stored (resp_conversation_id resp) st'
    = stored (resp_conversation_id resp) st
      ++ [user_message request (user_timestamp request st);
          assistant_message (response resp) t].
Proof.
  intros Hrun.
  apply chat_success in Hrun as (t & _ & _ & -> & _ & Hhist & _).
  exists t. apply stored_insert in Hhist. rewrite Hhist.
  unfold chat_context. by rewrite <-app_assoc.
Qed.

(** A successful request can be read back: [get_history] for the id in
    the response returns what the conversation held before, then the user
    message, then the assistant message with the response text. *)
Theorem chat_then_get_history request st resp st' :
  chat request st = (Ok resp, st') →
  ∃ t,
    get_history (resp_conversation_id resp) st'
    = (Ok {| hist_conversation_id := resp_conversation_id resp;
             messages :=
               stored (resp_conversation_id resp) st
               ++ [user_message request (user_timestamp request st);
                   assistant_message (response resp) t] |}, st').
Proof.
  intros Hrun. destruct (chat_success_stored _ _ _ _ Hrun) as [t Hstored].
  exists t. by rewrite get_history_stored, Hstored.
Qed.

(** A request that supplies the id returned by an earlier request is
    answered under the same id, and its exchange is stored after the
    earlier one in that conversation. *)
Theorem follow_up_continues_conversation request1 st resp1 st1 request2 resp2 st2 :
  chat request1 st = (Ok resp1, st1) →
  conversation_id request2 = Some (resp_conversation_id resp1) →
  chat request2 st1 = (Ok resp2, st2) →
  resp_conversation_id resp2 = resp_conversation_id resp1
  ∧ role_and_content <$> stored (resp_conversation_id resp1) st2
    = (role_and_content <$> stored (resp_conversation_id resp1) st)
      ++ transcript [request1; request2] [resp1; resp2].
Proof.
  intros Hrun1 Hid Hrun2.
  destruct (chat_success_stored _ _ _ _ Hrun1) as [t1 Hs1].
  destruct (chat_success_stored _ _ _ _ Hrun2) as [t2 Hs2].
  assert (resp_conversation_id resp2 = resp_conversation_id resp1) as Heq.
  { apply chat_success in Hrun1 as (_ & _ & _ & Hc1 & _).
    apply chat_success in Hrun2 as (_ & _ & _ & Hc2 & _).
    rewrite Hc2. apply resolved_id_follow_up; [done|].
    rewrite Hc1. apply resolved_id_nonempty. }
  split; [done|]. rewrite Heq in Hs2. rewrite Hs2, Hs1.
  rewrite !fmap_app, <-app_assoc. reflexivity.
Qed.

(** [chat] writes one conversation only: whether it succeeds or fails,
    every other conversation is as it was. *)
Theorem chat_leaves_other_conversations request st other :
  other ≠ resolved_id request st →
  conversation_history (state_after (chat request) st) !! other
  = conversation_history st !! other.
Proof.
  intros Hne. unfold state_after.
  pose proof (chat_cases request st) as Hcases. cbv zeta in Hcases.
  destruct (generator_outcome request st) as [ai|e].
  - destruct Hcases as (t & t' & st' & -> & Hhist & _). simpl.
    by rewrite Hhist, lookup_insert_ne.
  - destruct Hcases as (st' & -> & Hhist & _). simpl.
    by rewrite Hhist, lookup_insert_ne.
Qed.

(** [chat] does not touch the WebSocket side: the registry, the frames
    sent and the state of the channels are the same after it, whether it
    succeeds or fails. *)
Theorem chat_leaves_connections request st :
  same_connections st (state_after (chat request) st).
Proof.
  unfold state_after.
  pose proof (chat_cases request st) as Hcases. cbv zeta in Hcases.
  destruct (generator_outcome request st) as [ai|e].
  - by destruct Hcases as (t & t' & st' & -> & _ & Hconn).
  - by destruct Hcases as (st' & -> & _ & Hconn).
Qed.

(** [chat] creates at most one conversation: the number that [get_stats]
    reports afterwards is one more when the request's conversation did
    not exist, and the same when it did. *)
Theorem chat_counts_conversations request st :
  ∃ before after,
    get_stats st = (Ok before, st)
    ∧ get_stats (state_after (chat request) st)
      = (Ok after, state_after (chat request) st)
    ∧ total_conversations after
      = total_conversations before
        + (if decide (is_Some (conversation_history st
                                !! resolved_id request st))
           then 0 else 1).
Proof.
  eexists _, _. split; [reflexivity|]. split; [reflexivity|]. simpl.
  unfold state_after.
  pose proof (chat_cases request st) as Hcases. cbv zeta in Hcases.
  assert (∀ l, size (<[resolved_id request st := l]> (conversation_history st))
               = size (conversation_history st)
                 + (if decide (is_Some (conversation_history st
                                         !! resolved_id request st))
                    then 0 else 1)) as Hsize.
  { intros l. case_decide as Hin.
    - destruct Hin as [l0 Hl0].
      rewrite <-(insert_delete_id (conversation_history st) _ _ Hl0) at 2.
      rewrite <-insert_delete_eq.
      rewrite !map_size_insert_None by apply lookup_delete_eq. lia.
    - apply eq_None_not_Some in Hin. rewrite map_size_insert_None by done.
      lia. }
  destruct (generator_outcome request st) as [ai|e].
  - destruct Hcases as (t & t' & st' & -> & Hhist & _). simpl.
    rewrite Hhist. apply Hsize.
  - destruct Hcases as (st' & -> & Hhist & _). simpl.
    rewrite Hhist. apply Hsize.
Qed.
End ChatMore.

(** ** The response generator *)

Lemma str_app_assoc (a b c : string) : (a +:+ b) +:+ c = a +:+ (b +:+ c).
Proof.
  induction a as [|x a IH]; [done|].
  change (String x ((a +:+ b) +:+ c) = String x (a +:+ (b +:+ c))).
  by rewrite IH.
Qed.

Lemma str_contains_cons needle c s :
  str_contains needle s = true → str_contains needle (String c s) = true.
Proof.
  intros Hs.
  change (str_contains needle (String c s))
    with (if String.prefix needle (String c s) then true
          else str_contains needle s).
  rewrite Hs. by destruct (String.prefix needle (String c s)).
Qed.

Lemma str_contains_prefix needle hay :
  String.prefix needle hay = true → str_contains needle hay = true.
Proof.
  intros Hp. destruct hay as [|c s].
  - change (str_contains needle EmptyString)
      with (if String.prefix needle EmptyString then true else false).
    by rewrite Hp.
  - change (str_contains needle (String c s))
      with (if String.prefix needle (String c s) then true
            else str_contains needle s).
    by rewrite Hp.
Qed.

(** [needle in (before + needle + after)] *)
Lemma str_contains_middle needle before after :
  str_contains needle (before +:+ (needle +:+ after)) = true.
Proof.
  induction before as [|c before IH].
  - change (str_contains needle (needle +:+ after) = true).
    apply str_contains_prefix, prefix_append.
  - change (str_contains needle (String c (before +:+ (needle +:+ after)))
            = true).
    by apply str_contains_cons.
Qed.

Lemma unlines_cons l x xs :
  unlines (l :: x :: xs) = l +:+ newline +:+ unlines (x :: xs).
Proof. reflexivity. Qed.

(** A line that quotes [m] makes the joined text quote [m]. *)
Lemma unlines_quotes (ls1 : list string) (p m q : string) (ls2 : list string) :
  ∃ before after,
    unlines (ls1 ++ (p +:+ (m +:+ q)) :: ls2) = before +:+ (m +:+ after).
Proof.
  induction ls1 as [|l ls1 (before & after & IH)].
  - destruct ls2 as [|x ls2].
    + by exists p, q.
    + exists p, (q +:+ newline +:+ unlines (x :: ls2)).
      change ([] ++ (p +:+ m +:+ q) :: x :: ls2)
        with ((p +:+ m +:+ q) :: x :: ls2).
      by rewrite unlines_cons, !str_app_assoc.
  - exists (l +:+ newline +:+ before), after.
    assert (∃ y ys, ls1 ++ (p +:+ m +:+ q) :: ls2 = y :: ys) as (y & ys & Hy)
      by (destruct ls1; simpl; eauto).
    change ((l :: ls1) ++ (p +:+ m +:+ q) :: ls2)
      with (l :: (ls1 ++ (p +:+ m +:+ q) :: ls2)).
    rewrite Hy, unlines_cons, <-Hy, IH. by rewrite !str_app_assoc.
Qed.

Section GeneratorMore.
Context {Py : Platform}.

Lemma information_response_quotes message :
  ∃ before after,
    information_response message = before +:+ (message +:+ after).
Proof.
  unfold information_response.
  rewrite <-(str_app_assoc "Based on your query: " dquote (message +:+ dquote)).
  exact (unlines_quotes [_; _] _ message _ _).
Qed.

Lemma default_response_quotes message :
  ∃ before after,
    default_response message = before +:+ (message +:+ after).
Proof.
  unfold default_response.
  rewrite <-(str_app_assoc "You said: " dquote (message +:+ dquote)).
  exact (unlines_quotes [_; _] _ message _ _).
Qed.

(** For every [str] message the generator returns a text, and the text
    is not empty. *)
Theorem generate_response_nonempty (message : string) (model : json)
    (context : option (list Message)) :
  ∃ r, generate_response (JStr message) model context = Ok r
       ∧ r ≠ EmptyString.
Proof.
  unfold generate_response.
  repeat case_match; eexists; (split; [reflexivity|]); discriminate.
Qed.

(** The generator either returns one of its four fixed texts or, in the
    information and default cases, a text that quotes the message
    verbatim. *)
Theorem generate_response_fixed_or_quoting (message : string) (model : json)
    (context : option (list Message)) (r : string) :
  generate_response (JStr message) model context = Ok r →
  r ∈ fixed_responses ∨ str_contains message r = true.
Proof.
  unfold generate_response, fixed_responses.
  repeat case_match; intros [= <-].
  - left. repeat constructor.
  - left. repeat constructor.
  - left. repeat constructor.
  - right. destruct (information_response_quotes message)
      as (before & after & ->). apply str_contains_middle.
  - left. repeat constructor.
  - right. destruct (default_response_quotes message)
      as (before & after & ->). apply str_contains_middle.
Qed.
End GeneratorMore.

(** ** Overlapping and colliding chat requests *)

Section ChatOverlap.
Context {Py : Platform} {Engine : AIEngine}.

Lemma stored_insert_ne cid k l st' (m : gmap string (list Message)) st :
  conversation_history st' = <[cid := l]> m →
  m = conversation_history st →
  k ≠ cid → stored k st' = stored k st.
Proof.
  intros Hh -> Hne. unfold stored. by rewrite Hh, lookup_insert_ne.
Qed.

(** The first half of [chat] stores the user message. *)
Lemma chat_begin_stored request st :
  ∃ st1,
    chat_begin request st
    = (Ok (resolved_id request st, generator_outcome request st), st1)
    ∧ stored (resolved_id request st) st1
      = stored (resolved_id request st) st
        ++ [user_message request (user_timestamp request st)]
    ∧ ∀ k, k ≠ resolved_id request st → stored k st1 = stored k st.
Proof.
  destruct (chat_begin_spec request st) as (st1 & Hrun & Hhist & _).
  exists st1. split; [done|]. split.
  - by apply stored_insert in Hhist.
  - intros k Hk. by eapply stored_insert_ne.
Qed.

(** The second half of [chat], when it succeeds, stores the assistant
    message. *)
Lemma chat_resume_stored request cid outcome st resp st' :
  chat_resume request cid outcome st = (Ok resp, st') →
  ∃ t,
    outcome = Ok (response resp)
    ∧ stored cid st' = stored cid st ++ [assistant_message (response resp) t]
    ∧ ∀ k, k ≠ cid → stored k st' = stored k st.
Proof.
  unfold chat_resume. destruct outcome as [ai|e]; unfold_m; simpl;
    [|unfold chat_except; unfold_m; simpl; done].
  destruct (conversation_history st !! cid) as [l|] eqn:Hl.
  - destruct (chat_epilogue_spec request cid ai st l Hl)
      as (t & t' & st2 & -> & Hhist & _).
    destruct (model request); simpl; [|unfold chat_except; unfold_m; done].
    intros [= <- <-]. exists t. simpl. split; [done|]. split.
    + rewrite (stored_insert _ _ _ _ Hhist). unfold stored. by rewrite Hl.
    + intros k Hk. by eapply stored_insert_ne.
  - unfold chat_epilogue, history_append, chat_except, utcnow. unfold_m.
    simpl. by rewrite Hl.
Qed.

Lemma chat_overlapped_runs request1 request2 st resp1 resp2 st' :
  chat_overlapped request1 request2 st = (Ok (resp1, resp2), st') →
  ∃ st1 st2 st3,
    chat_begin request1 st
    = (Ok (resolved_id request1 st, generator_outcome request1 st), st1)
    ∧ chat_begin request2 st1
      = (Ok (resolved_id request2 st1, generator_outcome request2 st1), st2)
    ∧ chat_resume request1 (resolved_id request1 st)
        (generator_outcome request1 st) st2 = (Ok resp1, st3)
    ∧ chat_resume request2 (resolved_id request2 st1)
        (generator_outcome request2 st1) st3 = (Ok resp2, st').
Proof.
  unfold chat_overlapped. unfold_m.
  destruct (chat_begin_stored request1 st) as (st1 & Hb1 & _).
  rewrite Hb1.
  destruct (chat_begin_stored request2 st1) as (st2 & Hb2 & _).
  rewrite Hb2. simpl.
  destruct (chat_resume request1 _ _ st2) as [[r1|e] st3] eqn:Hr1; [|done].
  destruct (chat_resume request2 _ _ st3) as [[r2|e] st4] eqn:Hr2; [|done].
  intros [= <- <- <-]. by exists st1, st2, st3.
Qed.

(** Two requests for the same conversation whose handlers overlap (the
    second starts while the first waits for the generator): when both
    succeed, the conversation has gained the two user messages followed
    by the two assistant messages. *)
Theorem overlapped_chats_same_conversation cid request1 request2 st resp1 resp2 st' :
  cid ≠ EmptyString →
  conversation_id request1 = Some cid →
  conversation_id request2 = Some cid →
  chat_overlapped request1 request2 st = (Ok (resp1, resp2), st') →
  role_and_content <$> stored cid st'
  = (role_and_content <$> stored cid st)
    ++ [ ("user", message request1); ("user", message request2);
         ("assistant", response resp1); ("assistant", response resp2) ].
Proof.
  intros Hne Hid1 Hid2 Hrun.
  apply chat_overlapped_runs in Hrun as (st1 & st2 & st3 & Hb1 & Hb2 & Hr1 & Hr2).
  destruct (chat_begin_stored request1 st) as (? & Hb1' & Hs1 & _).
  rewrite Hb1 in Hb1'. injection Hb1' as <-.
  destruct (chat_begin_stored request2 st1) as (? & Hb2' & Hs2 & _).
  rewrite Hb2 in Hb2'. injection Hb2' as <-.
  apply chat_resume_stored in Hr1 as (t1 & _ & Hs3 & _).
  apply chat_resume_stored in Hr2 as (t2 & _ & Hs4 & _).
  rewrite (proj1 (resolved_id_follow_up request1 st cid Hid1 Hne)) in *.
  rewrite (proj1 (resolved_id_follow_up request2 st1 cid Hid2 Hne)) in *.
  rewrite Hs4, Hs3, Hs2, Hs1. rewrite !fmap_app, <-!app_assoc. reflexivity.
Qed.

(** Two overlapping requests for different conversations do not mix:
    when both succeed, each conversation has gained exactly the exchange
    of its own request. *)
Theorem overlapped_chats_distinct_conversations cid1 cid2 request1 request2 st resp1 resp2 st' :
  cid1 ≠ EmptyString → cid2 ≠ EmptyString → cid1 ≠ cid2 →
  conversation_id request1 = Some cid1 →
  conversation_id request2 = Some cid2 →
  chat_overlapped request1 request2 st = (Ok (resp1, resp2), st') →
  role_and_content <$> stored cid1 st'
  = (role_and_content <$> stored cid1 st) ++ exchange request1 resp1
  ∧ role_and_content <$> stored cid2 st'
    = (role_and_content <$> stored cid2 st) ++ exchange request2 resp2.
Proof.
  intros Hne1 Hne2 Hdiff Hid1 Hid2 Hrun.
  apply chat_overlapped_runs in Hrun as (st1 & st2 & st3 & Hb1 & Hb2 & Hr1 & Hr2).
  destruct (chat_begin_stored request1 st) as (? & Hb1' & Hs1 & Ho1).
  rewrite Hb1 in Hb1'. injection Hb1' as <-.
  destruct (chat_begin_stored request2 st1) as (? & Hb2' & Hs2 & Ho2).
  rewrite Hb2 in Hb2'. injection Hb2' as <-.
  apply chat_resume_stored in Hr1 as (t1 & _ & Hs3 & Ho3).
  apply chat_resume_stored in Hr2 as (t2 & _ & Hs4 & Ho4).
  rewrite (proj1 (resolved_id_follow_up request1 st cid1 Hid1 Hne1)) in *.
  rewrite (proj1 (resolved_id_follow_up request2 st1 cid2 Hid2 Hne2)) in *.
  split.
  - rewrite (Ho4 cid1), Hs3, (Ho2 cid1), Hs1 by done.
    rewrite !fmap_app, <-!app_assoc. reflexivity.
  - rewrite Hs4, (Ho3 cid2), Hs2, (Ho1 cid2) by done.
    rewrite !fmap_app, <-!app_assoc. reflexivity.
Qed.

(** Generated ids collide when the clock does not advance between two
    requests without an id: the second request is answered under the id
    of the first, and its exchange is stored in the first one's
    conversation. *)
Theorem equal_timestamps_share_conversation request1 st resp1 st1 request2 resp2 st2 :
  conversation_id request1 = None →
  conversation_id request2 = None →
  chat request1 st = (Ok resp1, st1) →
  chat request2 st1 = (Ok resp2, st2) →
  timestamp (utcnow_at (clock st1)) = timestamp (utcnow_at (clock st)) →
  resp_conversation_id resp2 = resp_conversation_id resp1
  ∧ role_and_content <$> stored (resp_conversation_id resp1) st2
    = (role_and_content <$> stored (resp_conversation_id resp1) st)
      ++ transcript [request1; request2] [resp1; resp2].
Proof.
  intros Hid1 Hid2 Hrun1 Hrun2 Hts.
  destruct (chat_success_stored _ _ _ _ Hrun1) as [t1 Hs1].
  destruct (chat_success_stored _ _ _ _ Hrun2) as [t2 Hs2].
  assert (resp_conversation_id resp2 = resp_conversation_id resp1) as Heq.
  { apply chat_success in Hrun1 as (_ & _ & _ & Hc1 & _).
    apply chat_success in Hrun2 as (_ & _ & _ & Hc2 & _).
    rewrite Hc1, Hc2. unfold resolved_id, fresh_id.
    by rewrite Hid1, Hid2, Hts. }
  split; [done|]. rewrite Heq in Hs2. rewrite Hs2, Hs1.
  rewrite !fmap_app, <-app_assoc. reflexivity.
Qed.
End ChatOverlap.

(** ** The registry as a dict *)

Section DictFacts.
Context {V : Type}.
Implicit Types (d : list (string * V)) (k : string) (v : V).

Lemma dict_get_set_eq k v d : dict_get k (dict_set k v d) = Some v.
Proof.
  induction d as [|[k' v'] d IH]; simpl.
  - by rewrite decide_True.
  - destruct (decide (k = k')) as [->|Hne]; simpl.
    + by rewrite decide_True.
    + by rewrite decide_False.
Qed.

Lemma dict_get_set_ne k k' v d :
  k' ≠ k → dict_get k' (dict_set k v d) = dict_get k' d.
Proof.
  intros Hne. induction d as [|[k0 v0] d IH]; simpl.
  - by rewrite decide_False.
  - destruct (decide (k = k0)) as [->|Hk]; simpl.
    + by rewrite !decide_False.
    + by rewrite IH.
Qed.

Lemma dict_get_del_ne k k' d :
  k' ≠ k → dict_get k' (dict_del k d) = dict_get k' d.
Proof.
  intros Hne. induction d as [|[k0 v0] d IH]; simpl; [done|].
  destruct (decide (k = k0)) as [->|Hk]; simpl.
  - by rewrite IH, decide_False.
  - by rewrite IH.
Qed.

Lemma dict_del_absent k d : dict_get k d = None → dict_del k d = d.
Proof.
  induction d as [|[k0 v0] d IH]; simpl; [done|].
  destruct (decide (k = k0)); [done|]. intros Hd. by rewrite IH.
Qed.

Lemma dict_del_set_fresh k v d :
  dict_get k d = None → dict_del k (dict_set k v d) = d.
Proof.
  induction d as [|[k0 v0] d IH]; simpl.
  - by rewrite decide_True.
  - destruct (decide (k = k0)) as [->|Hk]; [done|]. intros Hd. simpl.
    by rewrite decide_False, IH.
Qed.

Lemma length_dict_set k v d :
  length (dict_set k v d)
  = if decide (is_Some (dict_get k d)) then length d else S (length d).
Proof.
  induction d as [|[k0 v0] d IH]; simpl.
  - by destruct (decide (is_Some (@None V))) as [[? ?]|].
  - destruct (decide (k = k0)) as [->|Hk]; simpl.
    + destruct (decide (is_Some (Some v0))) as [|Hn]; [done|].
      destruct Hn. eauto.
    + rewrite IH. by destruct (decide (is_Some (dict_get k d))).
Qed.

Lemma elem_of_keys_dict_set x k v d :
  x ∈ (dict_set k v d).*1 ↔ x = k ∨ x ∈ d.*1.
Proof.
  induction d as [|[k0 v0] d IH]; simpl.
  - rewrite list_elem_of_singleton, elem_of_nil. tauto.
  - destruct (decide (k = k0)) as [->|Hk]; simpl;
      rewrite !elem_of_cons, ?IH; tauto.
Qed.

Lemma elem_of_keys_dict_del x k d :
  x ∈ (dict_del k d).*1 ↔ x ≠ k ∧ x ∈ d.*1.
Proof.
  induction d as [|[k0 v0] d IH]; simpl.
  - rewrite elem_of_nil. tauto.
  - destruct (decide (k = k0)) as [->|Hk]; simpl;
      rewrite ?elem_of_cons, IH; intuition congruence.
Qed.

Lemma NoDup_keys_dict_set k v d : NoDup d.*1 → NoDup (dict_set k v d).*1.
Proof.
  induction d as [|[k0 v0] d IH]; simpl; intros Hnd.
  - apply NoDup_singleton.
  - apply NoDup_cons in Hnd as [Hk0 Hnd].
    destruct (decide (k = k0)) as [->|Hk]; simpl.
    + by apply NoDup_cons.
    + apply NoDup_cons. split; [|by apply IH].
      rewrite elem_of_keys_dict_set. intros [?|?]; [congruence | done].
Qed.

Lemma NoDup_keys_dict_del k d : NoDup d.*1 → NoDup (dict_del k d).*1.
Proof.
  induction d as [|[k0 v0] d IH]; simpl; intros Hnd; [done|].
  apply NoDup_cons in Hnd as [Hk0 Hnd].
  destruct (decide (k = k0)) as [->|Hk]; simpl; [by apply IH|].
  apply NoDup_cons. split; [|by apply IH].
  rewrite elem_of_keys_dict_del. tauto.
Qed.
End DictFacts.

(** ** ConnectionManager *)

(** [connect] on a working channel registers it under the client id,
    replacing the channel a client of that id had (the registry then keeps
    its size) and leaving the other clients as they were; it sends nothing,
    so a replaced channel is not closed. *)
Theorem connect_registers (websocket : WebSocket) (client_id : string)
    (st : State) :
  healthy st websocket →
  ∃ st',
    connect websocket client_id st = (Ok tt, st')
    ∧ dict_get client_id (active_connections st') = Some websocket
    ∧ (∀ other, other ≠ client_id →
         dict_get other (active_connections st')
         = dict_get other (active_connections st))
    ∧ length (active_connections st')
      = (if decide (is_Some (dict_get client_id (active_connections st)))
         then length (active_connections st)
         else S (length (active_connections st)))
    ∧ outbox st' = outbox st.
Proof.
  intros Hok. unfold healthy in Hok.
  unfold connect, accept, logger_info. unfold_m. rewrite Hok. simpl.
  eexists. split; [reflexivity|]. simpl.
  split; [apply dict_get_set_eq|].
  split; [intros other Hne; by apply dict_get_set_ne|].
  split; [apply length_dict_set | done].
Qed.

Lemma disconnect_unregisters (client_id : string) (st : State) :
  ∃ st1,
    disconnect client_id st = (Ok tt, st1)
    ∧ disconnect client_id st1 = (Ok tt, st1)
    ∧ dict_get client_id (active_connections st1) = None
    ∧ ∀ other, other ≠ client_id →
        dict_get other (active_connections st1)
        = dict_get other (active_connections st).
Proof.
  assert (∀ s, dict_get client_id (active_connections s) = None →
               disconnect client_id s = (Ok tt, s)) as Hnoop.
  { intros s Hs. unfold disconnect. unfold_m. rewrite Hs.
    by rewrite decide_False by (by intros []). }
  destruct (dict_get client_id (active_connections st)) as [ws|] eqn:Hget.
  - unfold disconnect at 1. unfold logger_info. unfold_m. rewrite Hget.
    rewrite decide_True by eauto. simpl.
    eexists. split; [reflexivity|].
    split; [apply Hnoop; simpl; apply dict_get_del|].
    split; [simpl; apply dict_get_del|].
    intros other Hne. simpl. by apply dict_get_del_ne.
  - exists st. rewrite Hnoop by done. done.
Qed.

(** [disconnect] is idempotent: it returns normally whether or not the
    client is registered, a second call changes nothing (it does not even
    log), and the other clients stay registered. *)
Theorem disconnect_twice (client_id : string) (st : State) :
  ∃ st1,
    disconnect client_id st = (Ok tt, st1)
    ∧ disconnect client_id st1 = (Ok tt, st1)
    ∧ dict_get client_id (active_connections st1) = None
    ∧ ∀ other, other ≠ client_id →
        dict_get other (active_connections st1)
        = dict_get other (active_connections st).
Proof. apply disconnect_unregisters. Qed.

(** Registering a new client on a working channel and disconnecting it
    again gives back the registry as it was. *)
Theorem connect_disconnect_restores (websocket : WebSocket)
    (client_id : string) (st : State) :
  healthy st websocket →
  dict_get client_id (active_connections st) = None →
  (connect websocket client_id;; disconnect client_id) st
  = (Ok tt, state_after (connect websocket client_id;; disconnect client_id) st)
  ∧ active_connections
      (state_after (connect websocket client_id;; disconnect client_id) st)
    = active_connections st.
Proof.
  intros Hok Hnew. unfold healthy in Hok. unfold state_after.
  unfold connect, disconnect, accept, logger_info. unfold_m.
  rewrite Hok. simpl. rewrite dict_get_set_eq.
  rewrite decide_True by eauto. simpl.
  split; [done|]. by apply dict_del_set_fresh.
Qed.

(** A message for a client that has disconnected is dropped: sending
    after [disconnect] returns normally and puts nothing on the wire. *)
Theorem send_after_disconnect_is_dropped (msg client_id : string) (st : State) :
  ((disconnect client_id;; send_message msg client_id) st).1 = Ok tt
  ∧ outbox (state_after (disconnect client_id;; send_message msg client_id) st)
    = outbox st.
Proof.
  destruct (disconnect_unregisters client_id st) as (st1 & Hd & _ & Hget & _).
  assert (outbox st1 = outbox st) as Hout.
  { revert Hd. unfold disconnect, logger_info. unfold_m.
    case_decide; simpl; by intros [= <-]. }
  unfold state_after, send_message. unfold_m. rewrite Hd. simpl.
  by rewrite Hget.
Qed.

(** Whatever fails, [broadcast] leaves the registry and the conversation
    store alone, and the frames it sends are the payload, one for each
    entry of an initial part of the registry, in registration order.  So
    every frame goes to a registered channel, and when the registered
    channels are pairwise distinct no channel receives the payload
    twice. *)
Theorem broadcast_sends_to_a_prefix (msg : string) (st : State) :
  active_connections (state_after (broadcast msg) st) = active_connections st
  ∧ conversation_history (state_after (broadcast msg) st)
    = conversation_history st
  ∧ (∃ reached,
       reached `prefix_of` dict_values (active_connections st)
       ∧ sent_during (broadcast msg) st = deliveries msg reached)
  ∧ (∀ websocket payload,
       (websocket, payload) ∈ sent_during (broadcast msg) st →
       websocket ∈ dict_values (active_connections st) ∧ payload = msg)
  ∧ (NoDup (dict_values (active_connections st)) →
     NoDup (sent_during (broadcast msg) st)).
Proof.
  assert (∀ channels s,
            ∃ reached,
              reached `prefix_of` channels
              ∧ outbox (for_each channels (λ c, send_text c msg) s).2
                = outbox s ++ deliveries msg reached
              ∧ active_connections
                  (for_each channels (λ c, send_text c msg) s).2
                = active_connections s
              ∧ conversation_history
                  (for_each channels (λ c, send_text c msg) s).2
                = conversation_history s) as Hloop.
  { unfold deliveries.
    induction channels as [|c channels IH]; intros s; simpl.
    - exists []. simpl. by rewrite app_nil_r.
    - unfold_m. destruct (broken s !! c) as [e|] eqn:Hb.
      + rewrite !(send_text_broken c msg s e Hb). simpl.
        exists []. split; [apply prefix_nil|]. simpl. by rewrite app_nil_r.
      + rewrite !(send_text_healthy c msg s Hb). simpl.
        destruct (IH (with_outbox (λ o, o ++ [(c, msg)]) s))
          as (reached & Hpre & Hout & Hreg & Hhist).
        exists (c :: reached). split; [by apply prefix_cons|].
        rewrite Hout, Hreg, Hhist. simpl. by rewrite <-app_assoc. }
  destruct (Hloop (dict_values (active_connections st)) st)
    as (reached & Hpre & Hout & Hreg & Hhist).
  assert (sent_during (broadcast msg) st = deliveries msg reached) as Hsent.
  { apply sent_during_suffix. unfold state_after, broadcast. unfold_m. done. }
  rewrite Hsent.
  split; [unfold state_after, broadcast; unfold_m; done|].
  split; [unfold state_after, broadcast; unfold_m; done|].
  split; [by exists reached|]. unfold deliveries.
  destruct Hpre as [later Hlater]. split.
  - intros websocket payload Hin.
    apply list_elem_of_fmap in Hin as (ws & [= -> ->] & Hws).
    split; [|done]. rewrite Hlater. apply elem_of_app. by left.
  - intros Hnodup. rewrite Hlater in Hnodup.
    apply NoDup_app in Hnodup as (Hreached & _).
    assert (Inj (=) (=) (λ ws : WebSocket, (ws, msg))) as Hinj
      by (by intros ws1 ws2 [= ->]).
    by apply (NoDup_fmap_2 _ reached).
Qed.

(** ** How the handlers change the registry, the wire and the log *)

Section Wire.
Context {Py : Platform} {Engine : AIEngine}.

(** [P] is any reflexive and transitive relation between states that
    holds across each elementary update the handlers make: setting and
    deleting a registry entry, sending a frame, writing a log record,
    reading the clock, writing the conversation store and a change of the
    channels' transport. *)
Variable P : State → State → Prop.
Hypothesis P_refl : ∀ st, P st st.
Hypothesis P_trans : ∀ st1 st2 st3, P st1 st2 → P st2 st3 → P st1 st3.
Hypothesis P_set : ∀ k v st, P st (with_connections (dict_set k v) st).
Hypothesis P_del : ∀ k st, P st (with_connections (dict_del k) st).
Hypothesis P_send : ∀ x st, P st (with_outbox (λ o, o ++ [x]) st).
Hypothesis P_logged : ∀ r st, P st (with_log (λ l, l ++ [r]) st).
Hypothesis P_tick : ∀ st, P st (tick st).
Hypothesis P_history : ∀ f st, P st (with_history f st).
Hypothesis P_broken : ∀ f st, P st (with_broken f st).

Lemma wire_mret {A} (a : A) : preserves P (mret a).
Proof. by apply preserves_mret. Qed.

Lemma wire_raise {A} e : preserves P (raise (A := A) e).
Proof. by apply preserves_raise. Qed.

Lemma wire_lift {A} (r : Result A) : preserves P (lift r).
Proof. by apply preserves_lift. Qed.

Lemma wire_gets {A} (f : State → A) : preserves P (gets f).
Proof. by apply preserves_gets. Qed.

Lemma wire_utcnow : preserves P utcnow.
Proof. by apply preserves_utcnow. Qed.

Lemma wire_bind {A B} (m : M A) (f : A → M B) :
  preserves P m → (∀ a, preserves P (f a)) → preserves P (m ≫= f).
Proof. by apply preserves_bind. Qed.

Lemma wire_try_catch {A} (body : M A) (handler : exn → M A) :
  preserves P body → (∀ e, preserves P (handler e)) →
  preserves P (try_catch body handler).
Proof. by apply preserves_try_catch. Qed.

Lemma wire_for_each {A} (xs : list A) (body : A → M unit) :
  (∀ x, preserves P (body x)) → preserves P (for_each xs body).
Proof. by apply preserves_for_each. Qed.

Lemma wire_accept websocket : preserves P (accept websocket).
Proof.
  intros st. unfold state_after, accept.
  destruct (broken st !! websocket); apply P_refl.
Qed.

Lemma wire_send_text websocket data : preserves P (send_text websocket data).
Proof.
  intros st. unfold state_after, send_text.
  destruct (broken st !! websocket); [apply P_refl | apply P_send].
Qed.

Lemma wire_logger_info msg : preserves P (logger_info msg).
Proof. intros st. apply P_logged. Qed.

Lemma wire_logger_error msg : preserves P (logger_error msg).
Proof. intros st. apply P_logged. Qed.

Lemma wire_set k v : preserves P (modify (with_connections (dict_set k v))).
Proof. intros st. apply P_set. Qed.

Lemma wire_del k : preserves P (modify (with_connections (dict_del k))).
Proof. intros st. apply P_del. Qed.

Lemma wire_history f : preserves P (modify (with_history f)).
Proof. intros st. apply P_history. Qed.

Hint Resolve wire_mret wire_raise wire_lift wire_gets wire_utcnow
  wire_accept wire_send_text wire_logger_info wire_logger_error wire_set
  wire_del wire_history : core.

Ltac wire :=
  repeat first
    [ progress intros
    | solve [auto]
    | apply wire_bind
    | apply wire_try_catch
    | apply wire_for_each
    | match goal with
      | |- preserves _ (match ?x with _ => _ end) => destruct x
      end ].

Lemma wire_connect websocket client_id :
  preserves P (connect websocket client_id).
Proof. unfold connect. wire. Qed.

Lemma wire_disconnect client_id : preserves P (disconnect client_id).
Proof. unfold disconnect. wire. Qed.

Lemma wire_send_message msg client_id :
  preserves P (send_message msg client_id).
Proof. unfold send_message. wire. Qed.

Lemma wire_broadcast msg : preserves P (broadcast msg).
Proof. unfold broadcast. wire. Qed.

Hint Resolve wire_connect wire_disconnect wire_send_message wire_broadcast
  : core.

Lemma wire_ws_welcome client_id : preserves P (ws_welcome client_id).
Proof. unfold ws_welcome. wire. Qed.

Lemma wire_ws_except client_id e : preserves P (ws_except client_id e).
Proof. unfold ws_except. wire. Qed.

Lemma wire_ws_turn client_id received :
  preserves P (ws_turn client_id received).
Proof. unfold ws_turn. wire. Qed.

Hint Resolve wire_ws_welcome wire_ws_except wire_ws_turn : core.

Lemma wire_ws_loop client_id frames : preserves P (ws_loop client_id frames).
Proof. induction frames; simpl; wire. Qed.

Hint Resolve wire_ws_loop : core.

Lemma wire_websocket_endpoint websocket client_id frames :
  preserves P (websocket_endpoint websocket client_id frames).
Proof. unfold websocket_endpoint. wire. Qed.

Lemma wire_ws_open websocket client_id :
  preserves P (ws_open websocket client_id).
Proof. unfold ws_open. wire. Qed.

Lemma wire_ws_step client_id received :
  preserves P (ws_step client_id received).
Proof. unfold ws_step. wire. Qed.

Lemma wire_ws_steps session client_id frames :
  preserves P (ws_steps session client_id frames).
Proof.
  revert session. pose proof wire_ws_step.
  induction frames; intros []; simpl; wire.
Qed.

Lemma wire_history_append cid m : preserves P (history_append cid m).
Proof. unfold history_append. wire. Qed.

Lemma wire_chat_prologue request : preserves P (chat_prologue request).
Proof.
  unfold chat_prologue, fresh_conversation_id.
  pose proof wire_history_append. wire.
Qed.

Lemma wire_chat_epilogue request cid ai :
  preserves P (chat_epilogue request cid ai).
Proof. unfold chat_epilogue. pose proof wire_history_append. wire. Qed.

Lemma wire_chat_except {A} e : preserves P (chat_except (A := A) e).
Proof. unfold chat_except. wire. Qed.

Hint Resolve wire_chat_prologue wire_chat_epilogue wire_chat_except : core.

Lemma wire_chat request : preserves P (chat request).
Proof. unfold chat, history_lookup. wire. Qed.

Lemma wire_chat_begin request : preserves P (chat_begin request).
Proof. unfold chat_begin, history_lookup. wire. Qed.

Lemma wire_chat_resume request cid outcome :
  preserves P (chat_resume request cid outcome).
Proof. unfold chat_resume. wire. Qed.

Lemma wire_upload_file file : preserves P (upload_file file).
Proof. unfold upload_file. wire. Qed.

Lemma wire_health_check : preserves P health_check.
Proof. unfold health_check. wire. Qed.

(** [P] holds across every operation of the system. *)
Lemma wire_exec op st : P st (exec op st).
Proof.
  destruct op; simpl.
  - unfold root. by destruct frontend.
  - apply wire_health_check.
  - apply P_refl.
  - apply wire_chat.
  - apply wire_chat_begin.
  - apply wire_chat_resume.
  - unfold state_after, get_history. unfold_m.
    case_match; apply P_refl.
  - apply wire_upload_file.
  - apply P_refl.
  - apply wire_websocket_endpoint.
  - apply wire_ws_open.
  - apply wire_ws_step.
  - apply wire_broadcast.
  - apply P_broken.
Qed.

Lemma wire_exec_all ops st : P st (exec_all ops st).
Proof.
  revert st. induction ops as [|op ops IH]; intros st; simpl.
  - apply P_refl.
  - eapply P_trans; [apply wire_exec | apply IH].
Qed.
End Wire.

(** ** WebSocket sessions *)

Lemma outbox_grows_refl st : outbox st `prefix_of` outbox st.
Proof. done. Qed.

Lemma error_records_info msg st :
  error_records (with_log (λ l, l ++ [{| level := "INFO"; text := msg |}]) st)
  = error_records st.
Proof.
  unfold error_records. simpl. rewrite filter_app. simpl.
  rewrite filter_cons_False by (simpl; discriminate).
  by rewrite filter_nil, app_nil_r.
Qed.

Lemma error_records_error msg st :
  error_records (with_log (λ l, l ++ [{| level := "ERROR"; text := msg |}]) st)
  = error_records st ++ [{| level := "ERROR"; text := msg |}].
Proof.
  unfold error_records. simpl. rewrite filter_app. simpl.
  by rewrite filter_cons_True by done.
Qed.

Lemma error_records_connections f st :
  error_records (with_connections f st) = error_records st.
Proof. done. Qed.

Lemma disconnect_error_records client_id st :
  error_records (state_after (disconnect client_id) st) = error_records st.
Proof.
  unfold state_after, disconnect, logger_info. unfold_m.
  case_decide; simpl; [|done].
  by rewrite error_records_info, error_records_connections.
Qed.

Section SessionsMore.
Context {Py : Platform} {Engine : AIEngine}.

Lemma connect_healthy websocket client_id st :
  healthy st websocket →
  ∃ msg,
    connect websocket client_id st
    = (Ok tt,
       with_log (λ l, l ++ [{| level := "INFO"; text := msg |}])
         (with_connections (dict_set client_id websocket) st)).
Proof.
  intros Hok. unfold healthy in Hok.
  unfold connect, accept, logger_info. unfold_m. rewrite Hok.
  by eexists.
Qed.

Lemma ws_welcome_sends websocket client_id st :
  dict_get client_id (active_connections st) = Some websocket →
  healthy st websocket →
  ws_welcome client_id st
  = (Ok tt,
     with_outbox
       (λ o, o ++ [(websocket,
                    connection_frame client_id (utcnow_at (clock st)))])
       (tick st)).
Proof.
  intros Hreg Hok. unfold healthy in Hok.
  unfold ws_welcome, send_message, utcnow. unfold_m. simpl.
  rewrite Hreg. unfold send_text. simpl. by rewrite Hok.
Qed.

(** Opening a session on a working channel. *)
Lemma ws_open_registers websocket client_id st :
  healthy st websocket →
  ∃ st',
    ws_open websocket client_id st = (Ok Open, st')
    ∧ active_connections st'
      = dict_set client_id websocket (active_connections st)
    ∧ broken st' = broken st
    ∧ outbox st'
      = outbox st
        ++ [(websocket, connection_frame client_id (utcnow_at (clock st)))].
Proof.
  intros Hok. destruct (connect_healthy websocket client_id st Hok) as [msg Hc].
  unfold ws_open. unfold_m. rewrite Hc.
  rewrite (ws_welcome_sends websocket); [| apply dict_get_set_eq | exact Hok].
  eexists. split; [reflexivity|]. done.
Qed.

Lemma ws_turn_same_registry client_id received st :
  active_connections (state_after (ws_turn client_id received) st)
  = active_connections st.
Proof.
  apply (preserves_ws_turn same_registry); unfold same_registry; try done.
  intros st1 st2 st3 H12 H23. by rewrite H23.
Qed.

Lemma ws_step_session websocket client_id received st session st' :
  ws_step client_id received st = (Ok session, st') →
  session_matches websocket client_id Open st →
  session_matches websocket client_id session st'.
Proof.
  unfold ws_step. unfold_m. intros Hrun Hreg.
  pose proof (ws_turn_same_registry client_id received st) as Hsame.
  unfold state_after in Hsame.
  destruct (ws_turn client_id received st) as [[[]|e] st1]; simpl in *.
  - injection Hrun as <- <-. simpl. by rewrite Hsame.
  - destruct (ws_except_returns client_id e st1) as (st2 & Hex & Hget & _).
    rewrite Hex in Hrun. by injection Hrun as <- <-.
Qed.

Lemma ws_steps_session websocket client_id frames session0 st session st' :
  ws_steps session0 client_id frames st = (Ok session, st') →
  session_matches websocket client_id session0 st →
  session_matches websocket client_id session st'.
Proof.
  revert session0 st. induction frames as [|received frames IH];
    intros [] st; simpl; try (by intros [= <- <-]).
  unfold_m. intros Hrun Hreg.
  destruct (ws_step client_id received st) as [[s1|e] st1] eqn:Hstep; [|done].
  eapply IH; [exact Hrun|]. by eapply ws_step_session.
Qed.

(** [websocket_endpoint] raises only when the handshake fails, and then
    it has changed nothing: the client is not registered and nothing is
    logged or sent. *)
Theorem websocket_endpoint_refused websocket client_id frames st e :
  broken st !! websocket = Some e →
  connect websocket client_id st = (Raise e, st)
  ∧ websocket_endpoint websocket client_id frames st = (Raise e, st).
Proof.
  intros Hbad.
  assert (connect websocket client_id st = (Raise e, st)) as Hc.
  { unfold connect, accept. unfold_m. by rewrite Hbad. }
  split; [done|]. unfold websocket_endpoint. unfold_m. by rewrite Hc.
Qed.

(** On a working channel [websocket_endpoint] never raises, whatever
    frames arrive, and it keeps the registry in step with the session:
    if it is left waiting for the next frame the client is registered
    with this channel, and if it has returned the client id has no
    entry. *)
Theorem websocket_endpoint_session_registered websocket client_id frames st :
  healthy st websocket →
  ∃ session st',
    websocket_endpoint websocket client_id frames st = (Ok session, st')
    ∧ session_matches websocket client_id session st'.
Proof.
  intros Hok. rewrite websocket_endpoint_steps.
  destruct (ws_open_registers websocket client_id st Hok)
    as (st0 & -> & Hreg & _).
  destruct (ws_steps_returns Open client_id frames st0)
    as (session & st' & Hrun).
  exists session, st'. split; [done|].
  eapply ws_steps_session; [exact Hrun|].
  simpl. rewrite Hreg. apply dict_get_set_eq.
Qed.

(** The first frame that [websocket_endpoint] sends on a working channel
    is the connection acknowledgement, addressed to that channel and
    carrying the client id. *)
Theorem websocket_endpoint_acknowledges_first websocket client_id frames st :
  healthy st websocket →
  ∃ rest,
    sent_during (websocket_endpoint websocket client_id frames) st
    = (websocket, connection_frame client_id (utcnow_at (clock st))) :: rest.
Proof.
  intros Hok.
  destruct (ws_open_registers websocket client_id st Hok)
    as (st0 & Hopen & _ & _ & Hout).
  assert (outbox st0
          `prefix_of` outbox (state_after (ws_steps Open client_id frames) st0))
    as [rest Hrest].
  { apply (wire_ws_steps (λ s s', outbox s `prefix_of` outbox s'));
      simpl; try done.
    - intros s1 s2 s3 H12 H23. by etrans.
    - intros x s. by apply prefix_app_r. }
  exists rest. apply sent_during_suffix. unfold state_after in *.
  rewrite websocket_endpoint_steps, Hopen, Hrest, Hout.
  by rewrite <-app_assoc.
Qed.

(** A frame that decodes to an object is answered by one frame on the
    client's channel: type "message", the generated text, and the model
    of the frame, where a missing message counts as the empty string and
    a missing model as "quantum-ai"; the session stays open. *)
Theorem ws_step_answers client_id data fields r websocket st :
  json_loads data = Some (JObj fields) →
  generate (default (JStr EmptyString) (dict_get "message" fields))
           (default (JStr "quantum-ai") (dict_get "model" fields)) None
  = Ok r →
  dict_get client_id (active_connections st) = Some websocket →
  healthy st websocket →
  ws_step client_id (Ok data) st
  = (Ok Open,
     with_outbox
       (λ o, o ++ [(websocket,
                    message_frame r
                      (default (JStr "quantum-ai") (dict_get "model" fields))
                      (utcnow_at (clock st)))])
       (tick st)).
Proof.
  intros Hdata Hgen Hreg Hok. unfold healthy in Hok.
  unfold ws_step, ws_turn, send_message, send_text, utcnow, json_get.
  unfold_m. simpl. rewrite Hdata. simpl. rewrite Hgen. simpl.
  rewrite Hreg. simpl. by rewrite Hok.
Qed.

(** A frame that decodes to anything but an object ends the session: the
    [get] of the handler fails, the error is logged and the client is
    removed. *)
Theorem ws_step_rejects_non_object client_id data v st :
  json_loads data = Some v →
  (∀ fields, v ≠ JObj fields) →
  ∃ st',
    ws_step client_id (Ok data) st = (Ok Closed, st')
    ∧ dict_get client_id (active_connections st') = None
    ∧ websocket_error_record
        (AttributeError ("'" +:+ py_type_name v
                         +:+ "' object has no attribute 'get'"))
      ∈ log st'.
Proof.
  intros Hdata Hv.
  set (e := AttributeError ("'" +:+ py_type_name v
                            +:+ "' object has no attribute 'get'")).
  assert (ws_turn client_id (Ok data) st = (Raise e, st)) as Hturn.
  { unfold ws_turn, json_get. unfold_m. simpl. rewrite Hdata. simpl.
    destruct v; try done. by destruct (Hv fields). }
  unfold ws_step. unfold_m. rewrite Hturn.
  destruct (ws_except_returns client_id e st) as (st' & -> & Hget & Hlog).
  exists st'. split; [done|]. split; [done|]. by apply Hlog.
Qed.

(** When the receive raises, the session ends and the client is removed.
    A [WebSocketDisconnect] leaves no error record; any other exception
    adds exactly one. *)
Theorem ws_step_receive_failure client_id e st :
  ∃ st',
    ws_step client_id (Raise e) st = (Ok Closed, st')
    ∧ dict_get client_id (active_connections st') = None
    ∧ error_records st'
      = error_records st
        ++ match e with
           | WebSocketDisconnect => []
           | _ => [websocket_error_record e]
           end.
Proof.
  destruct (ws_except_returns client_id e st) as (st' & Hex & Hget & _).
  exists st'. split; [unfold ws_step, ws_turn; unfold_m; simpl; by rewrite Hex|].
  split; [done|].
  assert (st' = state_after (ws_except client_id e) st) as ->
    by (unfold state_after; by rewrite Hex).
  unfold state_after, ws_except.
  destruct e;
    try (rewrite app_nil_r; apply disconnect_error_records).
  all: unfold logger_error at 1; unfold_m; simpl.
  all: match goal with |- context [disconnect _ ?s] =>
         pose proof (disconnect_error_records client_id s) as Hd
       end.
  all: unfold state_after in Hd; rewrite Hd.
  all: apply error_records_error.
Qed.

(** A session whose client id is no longer registered keeps running, but
    nothing it does reaches the wire: the turn puts no frame in the
    outbox and leaves the registry as it is. *)
Theorem unregistered_session_is_silent client_id received st :
  dict_get client_id (active_connections st) = None →
  outbox (state_after (ws_step client_id received) st) = outbox st
  ∧ dict_get client_id
      (active_connections (state_after (ws_step client_id received) st))
    = None.
Proof.
  intros Hnone.
  assert (outbox (state_after (ws_turn client_id received) st) = outbox st)
    as Hturn.
  { unfold state_after, ws_turn, send_message, utcnow. unfold_m.
    repeat (case_match; simplify_eq/=; try done). }
  pose proof (ws_turn_same_registry client_id received st) as Hreg.
  unfold state_after, ws_step in *. unfold_m.
  destruct (ws_turn client_id received st) as [[[]|e] st1]; simpl in *.
  - by rewrite Hreg.
  - destruct (ws_except_returns client_id e st1) as (st2 & Hex & Hget & _).
    rewrite Hex. simpl. split; [|done].
    assert (outbox (state_after (ws_except client_id e) st1) = outbox st1)
      as Hout.
    { apply (preserves_ws_except (λ s s', outbox s' = outbox s));
        try done. intros s1 s2 s3 H12 H23. by rewrite H23. }
    unfold state_after in Hout. rewrite Hex in Hout. simpl in Hout.
    by rewrite Hout.
Qed.

(** Closing a session removes the entry of its client id even when that
    entry belongs to a newer session: after a second connection under
    the same id has replaced the first, the end of the first session
    unregisters the second one's channel. *)
Theorem closing_superseded_session_unregisters_successor
    websocket1 websocket2 client_id e st :
  healthy st websocket1 →
  healthy st websocket2 →
  ∃ st2 st3,
    (ws_open websocket1 client_id;; ws_open websocket2 client_id) st
    = (Ok Open, st2)
    ∧ dict_get client_id (active_connections st2) = Some websocket2
    ∧ ws_step client_id (Raise e) st2 = (Ok Closed, st3)
    ∧ dict_get client_id (active_connections st3) = None.
Proof.
  intros Hok1 Hok2.
  destruct (ws_open_registers websocket1 client_id st Hok1)
    as (st1 & Hopen1 & _ & Hb1 & _).
  assert (healthy st1 websocket2) as Hok2' by (unfold healthy; by rewrite Hb1).
  destruct (ws_open_registers websocket2 client_id st1 Hok2')
    as (st2 & Hopen2 & Hreg2 & _).
  destruct (ws_except_returns client_id e st2) as (st3 & Hex & Hget & _).
  exists st2, st3. unfold ws_step, ws_turn. unfold_m. rewrite Hopen1, Hopen2.
  simpl. rewrite Hex.
  split; [done|]. split; [|done]. rewrite Hreg2. apply dict_get_set_eq.
Qed.
End SessionsMore.

(** With the engine of the source, an object whose message is not a string
    ends the session: the generator fails on it, the error is logged and
    the client is removed. *)
Theorem ws_step_rejects_non_string_message {Py : Platform}
    (client_id data : string) (fields : list (string * json)) (v : json)
    (st : State) :
  json_loads data = Some (JObj fields) →
  dict_get "message" fields = Some v →
  (∀ s, v ≠ JStr s) →
  ∃ st',
    ws_step (Engine := ai_engine) client_id (Ok data) st = (Ok Closed, st')
    ∧ dict_get client_id (active_connections st') = None
    ∧ websocket_error_record
        (AttributeError ("'" +:+ py_type_name v
                         +:+ "' object has no attribute 'lower'"))
      ∈ log st'.
Proof.
  intros Hdata Hmsg Hv.
  set (e := AttributeError ("'" +:+ py_type_name v
                            +:+ "' object has no attribute 'lower'")).
  assert (ws_turn (Engine := ai_engine) client_id (Ok data) st = (Raise e, st))
    as Hturn.
  { unfold ws_turn, json_get. unfold_m. simpl. rewrite Hdata. simpl.
    rewrite Hmsg. simpl. destruct v; try done. by destruct (Hv s). }
  unfold ws_step. unfold_m. rewrite Hturn.
  destruct (ws_except_returns client_id e st)
    as (st' & -> & Hget & Hlog).
  exists st'. split; [done|]. split; [done|]. by apply Hlog.
Qed.

(** ** Invariants of the whole system *)

(** The client ids of the registry stay distinct under every sequence of
    operations. *)
Theorem registry_keys_stay_distinct {Py : Platform} {Engine : AIEngine}
    (ops : list Operation) (st : State) :
  registry_ok st → registry_ok (exec_all ops st).
Proof.
  apply (wire_exec_all (λ s s', registry_ok s → registry_ok s'));
    unfold registry_ok; simpl; try done.
  - intros s1 s2 s3 H12 H23 H1. auto.
  - intros k v s. apply NoDup_keys_dict_set.
  - intros k s. apply NoDup_keys_dict_del.
Qed.

(** ** The further properties at work *)

Section MoreWitnesses.
Import Samples MoreSamples.
#[local] Existing Instance Reference.ascii_platform.

Lemma chat_then_get_history_witness :
  ∃ resp st' t,
    chat (Engine := ai_engine) hello_anonymous initial_state = (Ok resp, st')
    ∧ get_history (resp_conversation_id resp) st'
      = (Ok {| hist_conversation_id := resp_conversation_id resp;
               messages :=
                 stored (resp_conversation_id resp) initial_state
                 ++ [user_message hello_anonymous
                       (user_timestamp hello_anonymous initial_state);
                     assistant_message (response resp) t] |}, st').
Proof.
  destruct (chat (Engine := ai_engine) hello_anonymous initial_state)
    as [[resp|e] st'] eqn:Hrun; [|by vm_compute in Hrun].
  destruct (chat_then_get_history hello_anonymous initial_state resp st' Hrun)
    as [t Hget].
  exists resp, st', t. split; [reflexivity | exact Hget].
Defined.

(** The scenario of the test suite: a request without an id, then one
    that supplies the id that was returned. *)
Lemma follow_up_continues_conversation_witness :
  ∃ resp1 st1 resp2 st2,
    chat (Engine := ai_engine) hello_anonymous initial_state = (Ok resp1, st1)
    ∧ chat (Engine := ai_engine) (tell_me_more "conv_1700000000000000") st1
      = (Ok resp2, st2)
    ∧ resp_conversation_id resp2 = resp_conversation_id resp1
    ∧ role_and_content <$> stored (resp_conversation_id resp1) st2
      = (role_and_content <$> stored (resp_conversation_id resp1) initial_state)
        ++ transcript [hello_anonymous; tell_me_more "conv_1700000000000000"]
                      [resp1; resp2].
Proof.
  destruct (chat (Engine := ai_engine) hello_anonymous initial_state)
    as [[resp1|e] st1] eqn:Hrun1; [|by vm_compute in Hrun1].
  assert (resp_conversation_id resp1 = "conv_1700000000000000") as Hid.
  { pose proof Hrun1 as Hc. vm_compute in Hc. by injection Hc as <- _. }
  destruct (chat (Engine := ai_engine) (tell_me_more "conv_1700000000000000") st1)
    as [[resp2|e] st2] eqn:Hrun2.
  - exists resp1, st1, resp2, st2. split; [done|]. split; [done|].
    apply (follow_up_continues_conversation _ _ _ _ _ _ _ Hrun1); [|done].
    by rewrite Hid.
  - exfalso. pose proof Hrun1 as Hc. vm_compute in Hc. injection Hc as _ <-.
    by vm_compute in Hrun2.
Defined.

Lemma chat_leaves_other_conversations_witness :
  conversation_history (state_after (chat (Engine := ai_engine) hello)
                                    initial_state) !! "paris"
  = conversation_history initial_state !! "paris".
Proof. by apply chat_leaves_other_conversations. Defined.

Lemma generate_response_fixed_or_quoting_witness :
  default_response "Tell me more" ∈ fixed_responses
  ∨ str_contains "Tell me more" (default_response "Tell me more") = true.
Proof.
  by apply (generate_response_fixed_or_quoting
              "Tell me more" (JStr "quantum-ai") None).
Defined.

Lemma overlapped_chats_same_conversation_witness :
  ∃ resp1 resp2 st',
    chat_overlapped (Engine := ai_engine) hello what_is_python initial_state
    = (Ok (resp1, resp2), st')
    ∧ role_and_content <$> stored "trip" st'
      = (role_and_content <$> stored "trip" initial_state)
        ++ [ ("user", "Hello"); ("user", "What is Python?");
             ("assistant", response resp1); ("assistant", response resp2) ].
Proof.
  destruct (chat_overlapped (Engine := ai_engine) hello what_is_python
              initial_state) as [[[resp1 resp2]|e] st'] eqn:Hrun;
    [|by vm_compute in Hrun].
  exists resp1, resp2, st'. split; [done|].
  by apply (overlapped_chats_same_conversation (Engine := ai_engine) "trip" hello what_is_python
              initial_state resp1 resp2 st').
Defined.

Lemma overlapped_chats_distinct_conversations_witness :
  ∃ resp1 resp2 st',
    chat_overlapped (Engine := ai_engine) hello hello_paris initial_state
    = (Ok (resp1, resp2), st')
    ∧ role_and_content <$> stored "trip" st'
      = (role_and_content <$> stored "trip" initial_state)
        ++ exchange hello resp1
    ∧ role_and_content <$> stored "paris" st'
      = (role_and_content <$> stored "paris" initial_state)
        ++ exchange hello_paris resp2.
Proof.
  destruct (chat_overlapped (Engine := ai_engine) hello hello_paris
              initial_state) as [[[resp1 resp2]|e] st'] eqn:Hrun;
    [|by vm_compute in Hrun].
  exists resp1, resp2, st'. split; [done|].
  by apply (overlapped_chats_distinct_conversations (Engine := ai_engine)
              "trip" "paris" hello
              hello_paris initial_state resp1 resp2 st').
Defined.

Lemma connect_registers_witness :
  ∃ st',
    connect 4 "alice" one_client = (Ok tt, st')
    ∧ dict_get "alice" (active_connections st') = Some 4
    ∧ (∀ other, other ≠ "alice" →
         dict_get other (active_connections st')
         = dict_get other (active_connections one_client))
    ∧ length (active_connections st')
      = (if decide (is_Some (dict_get "alice" (active_connections one_client)))
         then length (active_connections one_client)
         else S (length (active_connections one_client)))
    ∧ outbox st' = outbox one_client.
Proof. by apply connect_registers. Defined.

Lemma connect_disconnect_restores_witness :
  (connect 4 "bob";; disconnect "bob") one_client
  = (Ok tt, state_after (connect 4 "bob";; disconnect "bob") one_client)
  ∧ active_connections
      (state_after (connect 4 "bob";; disconnect "bob") one_client)
    = active_connections one_client.
Proof. by apply connect_disconnect_restores. Defined.

(** The channel of the second client is broken: the first, registered
    client receives the payload, once. *)
Lemma broadcast_sends_to_a_prefix_witness :
  (0, "ping") ∈ sent_during (broadcast "ping") (two_clients [1])
  ∧ 0 ∈ dict_values (active_connections (two_clients [1]))
  ∧ NoDup (sent_during (broadcast "ping") (two_clients [1])).
Proof.
  destruct (broadcast_sends_to_a_prefix "ping" (two_clients [1]))
    as (_ & _ & _ & Hregistered & Honce).
  assert ((0, "ping") ∈ sent_during (broadcast "ping") (two_clients [1]))
    as Hin by (vm_compute; constructor).
  split; [exact Hin|]. split; [exact (proj1 (Hregistered _ _ Hin))|].
  apply Honce. simpl.
  apply NoDup_cons. split; [|apply NoDup_singleton].
  intros Hx. apply list_elem_of_singleton in Hx. discriminate.
Defined.

Lemma websocket_endpoint_refused_witness :
  connect 0 "carol" (two_clients [0]) = (Raise closed_transport, two_clients [0])
  ∧ websocket_endpoint (Engine := ai_engine) 0 "carol" [Ok hi_frame]
      (two_clients [0])
    = (Raise closed_transport, two_clients [0]).
Proof. by apply websocket_endpoint_refused. Defined.

Lemma websocket_endpoint_session_registered_witness :
  ∃ session st',
    websocket_endpoint (Engine := ai_engine) 7 "client1"
      [Ok hi_frame; Ok list_frame] initial_state = (Ok session, st')
    ∧ session_matches 7 "client1" session st'.
Proof. by apply websocket_endpoint_session_registered. Defined.

Lemma websocket_endpoint_acknowledges_first_witness :
  ∃ rest,
    sent_during (websocket_endpoint (Engine := ai_engine) 7 "client1"
                   [Ok hi_frame]) initial_state
    = (7, connection_frame "client1" (utcnow_at (clock initial_state))) :: rest.
Proof. by apply websocket_endpoint_acknowledges_first. Defined.

Lemma ws_step_answers_witness :
  ws_step (Engine := ai_engine) "alice" (Ok hi_frame) one_client
  = (Ok Open,
     with_outbox
       (λ o, o ++ [(3, message_frame greeting_response (JStr "quantum-ai")
                         (utcnow_at (clock one_client)))])
       (tick one_client)).
Proof.
  by apply (ws_step_answers (Engine := ai_engine) "alice" hi_frame
              [("message", JStr "hi")] greeting_response 3 one_client).
Defined.

Lemma ws_step_rejects_non_object_witness :
  ∃ st',
    ws_step (Engine := ai_engine) "alice" (Ok list_frame) one_client
    = (Ok Closed, st')
    ∧ dict_get "alice" (active_connections st') = None
    ∧ websocket_error_record
        (AttributeError "'list' object has no attribute 'get'")
      ∈ log st'.
Proof.
  by apply (ws_step_rejects_non_object (Engine := ai_engine) "alice"
              list_frame (JArr [JInt 1; JInt 2]) one_client).
Defined.

Lemma ws_step_rejects_non_string_message_witness :
  ∃ st',
    ws_step (Engine := ai_engine) "alice" (Ok number_message_frame) one_client
    = (Ok Closed, st')
    ∧ dict_get "alice" (active_connections st') = None
    ∧ websocket_error_record
        (AttributeError "'int' object has no attribute 'lower'")
      ∈ log st'.
Proof.
  by apply (ws_step_rejects_non_string_message "alice" number_message_frame
              [("message", JInt 5)] (JInt 5) one_client).
Defined.

Lemma unregistered_session_is_silent_witness :
  outbox (state_after (ws_step (Engine := ai_engine) "ghost" (Ok hi_frame))
                      one_client)
  = outbox one_client
  ∧ dict_get "ghost"
      (active_connections
         (state_after (ws_step (Engine := ai_engine) "ghost" (Ok hi_frame))
                      one_client))
    = None.
Proof. by apply unregistered_session_is_silent. Defined.

Lemma closing_superseded_session_unregisters_successor_witness :
  ∃ st2 st3,
    (ws_open 1 "alice";; ws_open 2 "alice") initial_state = (Ok Open, st2)
    ∧ dict_get "alice" (active_connections st2) = Some 2
    ∧ ws_step (Engine := ai_engine) "alice" (Raise WebSocketDisconnect) st2
      = (Ok Closed, st3)
    ∧ dict_get "alice" (active_connections st3) = None.
Proof.
  by apply (closing_superseded_session_unregisters_successor
              (Engine := ai_engine)).
Defined.

Lemma registry_keys_stay_distinct_witness :
  registry_ok initial_state
  ∧ registry_ok
      (exec_all (Engine := ai_engine)
         [ OpWsOpen 1 "alice"; OpWsOpen 2 "bob"; OpWsOpen 3 "alice";
           OpWsStep "bob" (Raise WebSocketDisconnect);
           OpChat hello; OpBroadcast "ping" ]
         initial_state).
Proof.
  assert (registry_ok initial_state) as Hok by apply NoDup_nil_2.
  split; [done|]. by apply registry_keys_stay_distinct.
Defined.

Lemma only_chat_writes_history_witness :
  conversation_history
    (exec (Engine := ai_engine) (OpBroadcast "ping") (two_clients [1]))
  = conversation_history (two_clients [1]).
Proof. by apply only_chat_writes_history. Defined.
End MoreWitnesses.

Section CollisionWitness.
Import MoreSamples.
#[local] Existing Instance frozen_platform.

(** With a clock that has stopped, two requests without an id share one
    conversation. *)
Lemma equal_timestamps_share_conversation_witness :
  ∃ resp1 st1 resp2 st2,
    chat (Engine := ai_engine) (frozen_request "Hello") initial_state
    = (Ok resp1, st1)
    ∧ chat (Engine := ai_engine) (frozen_request "Tell me more") st1
      = (Ok resp2, st2)
    ∧ resp_conversation_id resp2 = resp_conversation_id resp1
    ∧ role_and_content <$> stored (resp_conversation_id resp1) st2
      = (role_and_content <$> stored (resp_conversation_id resp1) initial_state)
        ++ transcript [frozen_request "Hello"; frozen_request "Tell me more"]
                      [resp1; resp2].
Proof.
  destruct (chat (Engine := ai_engine) (frozen_request "Hello") initial_state)
    as [[resp1|e] st1] eqn:Hrun1; [|by vm_compute in Hrun1].
  destruct (chat (Engine := ai_engine) (frozen_request "Tell me more") st1)
    as [[resp2|e] st2] eqn:Hrun2.
  - exists resp1, st1, resp2, st2. split; [done|]. split; [done|].
    by apply (equal_timestamps_share_conversation (Engine := ai_engine)
                (frozen_request "Hello") initial_state resp1 st1
                (frozen_request "Tell me more") resp2 st2).
  - exfalso. pose proof Hrun1 as Hc. vm_compute in Hc. injection Hc as _ <-.
    by vm_compute in Hrun2.
Defined.
End CollisionWitness.
